(** * agentia1: the project-tracking agent and the Telegram relay

    A shallow embedding of [agent_projet.py] (class [AgentChefProjet]) and of
    [go.py] ([handle_message]), with the properties of their specification.

    Conventions of the embedding.
    - A Python [str] is the list of its Unicode code points ([list N]), so
      that [len], slicing and [in] count code points as Python does.
    - A spreadsheet cell read back through gspread is either a number or a
      text; numbers are integers here (a priority, a day count, a
      percentage).
    - [str.lower] is the interpreter's Unicode case mapping, which is not part
      of the repository: it is a variable of the sections that need it, and
      [ascii_lower] instantiates it for evaluation on ASCII text. The
      parsing of a date by [datetime.strptime] is a variable as well, a date
      being the number of its day.
    - The replies of the language-model agents, the clock and the process
      environment are inputs of the functions that consult them.
    - The spreadsheet service and the disk answer every request: the
      handlers of their failures are not exercised. Of the logging only the
      records of the periodic sweep are kept, and the time stamps of the
      result records are left out. *)

From Stdlib Require Import ZArith NArith Ascii String Lia Bool.
From Stdlib Require Import DecimalString.
From stdpp Require Import base option list gmap.

Local Open Scope N_scope.
Local Open Scope nat_scope.

(** ** Python text *)

Abbreviation str := (list N) (only parsing).

(** The code points of an ASCII literal. *)
Fixpoint text (s : string) : str :=
  match s with
  | EmptyString => []
  | String a r => N_of_ascii a :: text r
  end.

(** The built-in operations on texts that the repository uses. *)
Module Py.

(** [needle in hay] at the head of [hay]. *)
Fixpoint starts_with (needle hay : str) : bool :=
  match needle, hay with
  | [], _ => true
  | _ :: _, [] => false
  | a :: n', b :: h' => (a =? b)%N && starts_with n' h'
  end.

(** [needle in hay] on texts. *)
Fixpoint contains (needle hay : str) : bool :=
  starts_with needle hay ||
  match hay with
  | [] => false
  | _ :: h' => contains needle h'
  end.

(** [s.split(sep)] for a one-character separator: never the empty list. *)
Fixpoint split (sep : N) (s : str) : list str :=
  match s with
  | [] => [[]]
  | c :: r =>
      if (c =? sep)%N then [] :: split sep r
      else match split sep r with
           | [] => [[c]]
           | l :: ls => (c :: l) :: ls
           end
  end.

(** [sep.join(parts)]. *)
Fixpoint join (sep : str) (parts : list str) : str :=
  match parts with
  | [] => []
  | [p] => p
  | p :: ps => p ++ sep ++ join sep ps
  end.

(** [str.isspace] on one code point: the Unicode white space. *)
Definition isspace (c : N) : bool :=
  ((9 <=? c) && (c <=? 13) || (28 <=? c) && (c <=? 32) ||
   (c =? 133) || (c =? 160) || (c =? 5760) ||
   (8192 <=? c) && (c <=? 8202) || (c =? 8232) || (c =? 8233) ||
   (c =? 8239) || (c =? 8287) || (c =? 12288))%N.

Fixpoint lstrip (s : str) : str :=
  match s with
  | [] => []
  | c :: r => if isspace c then lstrip r else s
  end.

Definition rstrip (s : str) : str := rev (lstrip (rev s)).

(** [s.strip()]. *)
Definition strip (s : str) : str := rstrip (lstrip s).

(** [s[i:j]] for [0 <= i]: the bounds are clamped to the text. *)
Definition slice {A} (s : list A) (i j : nat) : list A := take (j - i) (drop i s).

(** [str(z)] for an integer. *)
Definition str_of_int (z : Z) : str := text (NilZero.string_of_int (Z.to_int z)).

(** [str.lower] restricted to ASCII: the instance used to evaluate the model
    on ASCII text. *)
Definition ascii_lower_char (c : N) : N :=
  if ((65 <=? c) && (c <=? 90))%N then (c + 32)%N else c.

Definition ascii_lower (s : str) : str := map ascii_lower_char s.

(** [range(start, stop, step)] for a positive [step]; [stop] iterations are
    more than the loop can make. *)
Fixpoint range_from (fuel start stop step : nat) : list nat :=
  match fuel with
  | O => []
  | S f => if start <? stop then start :: range_from f (start + step) stop step else []
  end.

Definition range (start stop step : nat) : list nat := range_from stop start stop step.

End Py.

(** ** go.py: the Telegram relay *)

Module Go.

(** The reply sent when the generation fails. *)
Definition erreur_generation : str :=
  [10060%N] ++ text " Erreur lors de la g" ++ [233%N] ++ text "n" ++ [233%N] ++ text "ration.".

(** The messages [send_chunks limit contenu] passes to [reply_text], in order:
    the loop [for i in range(0, len(contenu), limit)]. *)
Definition send_chunks (limit : nat) (contenu : str) : list str :=
  map (fun i => Py.slice contenu i (i + limit)) (Py.range 0 (length contenu) limit).

(** [handle_message]: [resultat] is the content of the last message of the
    chat with the code agent, [None] when the chat raised. The result is the
    list of the messages sent back, in order. *)
Definition handle_message (resultat : option str) : list str :=
  match resultat with
  | Some contenu => send_chunks 4000 contenu
  | None => [erreur_generation]
  end.

End Go.

(** ** agent_projet.py: the data *)

(** A Python [dict] with text keys. *)
Abbreviation dict V := (gmap (list N) V) (only parsing).

(** [dict(zip(keys, values))]: a later pair overrides an earlier one. *)
Definition dict_zip {V} (keys : list str) (values : list V) : dict V :=
  foldl (fun d kv => <[kv.1 := kv.2]> d) ∅ (zip keys values).

(** [d.update(o)]: every key of [o] takes the value of [o]. *)
Definition update {V} (d o : dict V) : dict V := o ∪ d.

#[local] Set Warnings "-register-all".

(** A JSON document, as [json.load] returns it. *)
Inductive json :=
| JNull
| JBool (b : bool)
| JNum (z : Z)
| JStr (s : str)
| JArr (l : list json)
| JObj (m : dict json).

(** The value of a spreadsheet cell. *)
Inductive cell :=
| CInt (z : Z)
| CStr (s : str).

#[global] Instance cell_eq_dec : EqDecision cell.
Proof. solve_decision. Defined.

(** The empty cell. *)
Definition blank : cell := CStr [].

(** [str(v)] of a cell value, as an f-string prints it. *)
Definition cell_text (v : cell) : str :=
  match v with
  | CInt z => Py.str_of_int z
  | CStr s => s
  end.

(** The worksheet: its rows from row 1 on, each a list of cells from column
    1 on. A cell beyond the end of its row, or a row beyond the last one, is
    empty. *)
Abbreviation worksheet := (list (list cell)) (only parsing).

(** What the agent object holds. *)
Record agent := {
  config : dict json;
  sheet : worksheet;
  projects_cache : list (dict cell)
}.

Definition set_sheet (s : worksheet) (self : agent) : agent :=
  {| config := config self; sheet := s; projects_cache := projects_cache self |}.

Definition set_projects_cache (c : list (dict cell)) (self : agent) : agent :=
  {| config := config self; sheet := sheet self; projects_cache := c |}.

(** *** Exceptions and the state of the agent *)

Inductive exn :=
| KeyError (k : str)
| AttributeError
| APIError
| ReplyError
| JSONDecodeError.

Inductive outcome (A : Type) :=
| Return (a : A)
| Raise (e : exn).
Arguments Return {A} a.
Arguments Raise {A} e.

(** A method body: it runs on the agent object, changes it in place, and
    either returns or raises. What it wrote before raising stays written. *)
Definition M (A : Type) : Type := agent -> outcome A * agent.

Definition ret {A} (a : A) : M A := fun self => (Return a, self).

Definition raise {A} (e : exn) : M A := fun self => (Raise e, self).

Definition bind {A B} (m : M A) (k : A -> M B) : M B :=
  fun self =>
    match m self with
    | (Return a, self') => k a self'
    | (Raise e, self') => (Raise e, self')
    end.

(** [try: m except Exception as e: h e]. *)
Definition try_except {A} (m : M A) (h : exn -> M A) : M A :=
  fun self =>
    match m self with
    | (Return a, self') => (Return a, self')
    | (Raise e, self') => h e self'
    end.

Declare Scope py_scope.
Delimit Scope py_scope with py.
Notation "x <- m ;; k" := (bind m (fun x => k))
  (at level 100, m at next level, right associativity) : py_scope.
Notation "m ;;; k" := (bind m (fun _ => k))
  (at level 100, right associativity) : py_scope.

(** [for x in xs: body x]. *)
Fixpoint for_each {A} (xs : list A) (body : A -> M unit) : M unit :=
  match xs with
  | [] => ret tt
  | x :: r => (body x ;;; for_each r body)%py
  end.

(** ** agent_projet.py: the configuration loader *)

(** A file of the disk: the JSON object it holds, or text that is not JSON.
    A configuration file holds an object; other JSON documents are not
    modelled. *)
Inductive file :=
| JsonObject (m : dict json)
| Malformed.

(** The process environment and the disk. *)
Record system := {
  environ : dict str;
  disk : dict file
}.

(** [os.getenv(name, fallback)]. *)
Definition getenv (sys : system) (name fallback : str) : str :=
  default fallback (environ sys !! name).

Definition email_config (sys : system) : dict json :=
  <[text "smtp_server" := JStr (text "smtp.gmail.com")]>
  (<[text "smtp_port" := JNum 587]>
  (<[text "email" := JStr (getenv sys (text "EMAIL_USER") [])]>
  (<[text "password" := JStr (getenv sys (text "EMAIL_PASS") [])]> ∅))).

Definition monitoring : dict json :=
  <[text "check_interval_hours" := JNum 24]>
  (<[text "stagnation_alert_days" := JNum 7]>
  (<[text "urgent_alert_days" := JNum 14]> ∅)).

(** The built-in record [default_config]. *)
Definition default_config (sys : system) : dict json :=
  <[text "openrouter_api_key" := JStr (getenv sys (text "OPENROUTER_API_KEY") [])]>
  (<[text "google_creds_path" := JStr (getenv sys (text "GOOGLE_CREDS_PATH") (text "credentials.json"))]>
  (<[text "sheet_name" := JStr (getenv sys (text "SHEET_NAME") (text "Gestion_Projets"))]>
  (<[text "email_config" := JObj (email_config sys)]>
  (<[text "monitoring" := JObj monitoring]> ∅)))).

(** [_load_config]: the record returned (or the exception of [json.load])
    and the disk afterwards. A missing file is [FileNotFoundError], which the
    method handles by writing the defaults. *)
Definition _load_config (sys : system) (config_path : str) : outcome (dict json) * system :=
  match disk sys !! config_path with
  | Some (JsonObject config) => (Return (update (default_config sys) config), sys)
  | Some Malformed => (Raise JSONDecodeError, sys)
  | None =>
      (Return (default_config sys),
       {| environ := environ sys;
          disk := <[config_path := JsonObject (default_config sys)]> (disk sys) |})
  end.

(** ** agent_projet.py: the spreadsheet *)

Definition Nom_Projet : str := text "Nom_Projet".
Definition Statut : str := text "Statut".
Definition Priorite : str := text "Priorit" ++ [233%N].
Definition Description : str := text "Description".
Definition Prochaine_Action : str := text "Prochaine_Action".
Definition Deadline : str := text "Deadline".
Definition Date_Creation : str := text "Date_Creation".
Definition Derniere_MAJ : str := text "Derni" ++ [232%N] ++ text "re_MAJ".
Definition Jours_Stagnation : str := text "Jours_Stagnation".
Definition Alerte : str := text "Alerte".
Definition Progression : str := text "Progression_%".
Definition Notes : str := text "Notes".

(** The canonical header row. *)
Definition headers : list str :=
  [Nom_Projet; Statut; Priorite; Description; Prochaine_Action;
   Deadline; Date_Creation; Derniere_MAJ; Jours_Stagnation;
   Alerte; Progression; Notes].

(** Drops the empty texts at the end of a row, as the service does. *)
Fixpoint trim (values : list str) : list str :=
  match values with
  | [] => []
  | v :: r =>
      match trim r with
      | [] => if decide (v = []) then [] else [v]
      | r' => v :: r'
      end
  end.

(** [sheet.row_values(r)]: the texts of row [r] up to its last non-empty
    cell; the empty list when the row is absent or empty. *)
Definition row_values (r : nat) (s : worksheet) : list str :=
  match r with
  | O => []
  | S i => trim (map cell_text (default [] (s !! i)))
  end.

(** [sheet.clear()]. *)
Definition clear (s : worksheet) : worksheet := [].

(** [sheet.insert_row(values, index)]: the rows from [index] on move down. *)
Definition insert_row (values : list cell) (index : nat) (s : worksheet) : worksheet :=
  take (index - 1) s ++ values :: drop (index - 1) s.

(** [sheet.append_row(values)]. *)
Definition append_row (values : list cell) (s : worksheet) : worksheet :=
  s ++ [values].

(** [l] extended with [d] up to [n] elements. *)
Definition pad {A} (d : A) (n : nat) (l : list A) : list A :=
  l ++ replicate (n - length l) d.

(** The cell at row [r] and column [c], both counted from 1. *)
Definition cell_value (s : worksheet) (r c : nat) : cell :=
  match r, c with
  | S i, S j => default blank (default [] (s !! i) !! j)
  | _, _ => blank
  end.

(** The worksheet with [v] at row [S i], column [S j]. *)
Definition write (i j : nat) (v : cell) (s : worksheet) : worksheet :=
  <[i := <[j := v]> (pad blank (S j) (default [] (s !! i)))]> (pad [] (S i) s).

(** [sheet.get_all_records()]: one record per row below row 1, keyed by the
    texts of row 1; a row shorter than row 1 reads as empty cells. *)
Definition get_all_records (s : worksheet) : list (dict cell) :=
  match s with
  | [] => []
  | head :: rows =>
      map (fun r => dict_zip (map cell_text head) (pad blank (length head) r)) rows
  end.

(** ** agent_projet.py: the methods of [AgentChefProjet] *)

(** What a method reports in the [error] field of its result. *)
Inductive error :=
| Message (s : str)
| OfException (e : exn).

(** The record a method returns: [status] is [success] or [error]. *)
Inductive result (A : Type) :=
| Success (a : A)
| Error (e : error).
Arguments Success {A} a.
Arguments Error {A} e.

(** What the periodic sweep sends to the logger. *)
Inductive log_record :=
| LogWarning (message : str)
| LogError (e : exn).

Definition A_faire : str := [192%N] ++ text " faire".
Definition Termine : str := text "Termin" ++ [233%N].
Definition Annule : str := text "Annul" ++ [233%N].
Definition Projet_non_trouve : str := text "Projet non trouv" ++ [233%N].
Definition Analyser_les_besoins : str := text "Analyser les besoins".

(** The column of each field that [mettre_a_jour_projet] may write. *)
Definition columns : dict nat :=
  <[text "statut" := 2]> (<[text "priorite" := 3]> (<[text "description" := 4]>
  (<[text "prochaine_action" := 5]> (<[text "deadline" := 6]> (<[text "notes" := 12]> ∅))))).

(** [sheet.update_cell(r, c, v)]: rows and columns count from 1. *)
Definition update_cell (r c : nat) (v : cell) : M unit :=
  fun self =>
    match r, c with
    | S i, S j => (Return tt, set_sheet (write i j v (sheet self)) self)
    | _, _ => (Raise APIError, self)
    end.

(** [agent.generate_reply(...)]: [reply] is the text the remote model
    answered, [None] when the request failed. *)
Definition generate_reply (reply : option str) : M str :=
  match reply with
  | Some t => ret t
  | None => raise ReplyError
  end.

(** [setup_sheet_headers]. *)
Definition setup_sheet_headers : M unit :=
  fun self =>
    let existing_headers := row_values 1 (sheet self) in
    if bool_decide (existing_headers = []) || negb (bool_decide (existing_headers = headers))
    then (Return tt, set_sheet (insert_row (map CStr headers) 1 (clear (sheet self))) self)
    else (Return tt, self).

(** [get_all_projects]. *)
Definition get_all_projects : M (list (dict cell)) :=
  fun self => (Return (get_all_records (sheet self)), self).

(** [refresh_projects_cache]. *)
Definition refresh_projects_cache : M unit :=
  (projects <- get_all_projects ;;
   fun self => (Return tt, set_projects_cache projects self))%py.

(** The row of the first project called [nom_projet], counting the records
    from [i]: the loop [for i, project in enumerate(projects, 2)] up to its
    [break]. *)
Fixpoint find_project_row (nom_projet : str) (projects : list (dict cell)) (i : nat) : option nat :=
  match projects with
  | [] => None
  | project :: r =>
      if bool_decide (project !! Nom_Projet = Some (CStr nom_projet)) then Some i
      else find_project_row nom_projet r (S i)
  end.

(** The text of an alert, for the name and the day count of a project. *)
Definition alert_text (nom : cell) (jours_stagnation : Z) : str :=
  [9888%N] ++ text " " ++ cell_text nom ++ text " : " ++ Py.str_of_int jours_stagnation
  ++ text " jours sans mise " ++ [224%N] ++ text " jour".

(** The alert of the sweep for one stagnant project; [project['Nom_Projet']]
    raises when the record has no such key. *)
Definition alert_line (project : dict cell) (jours_stagnation : Z) : M str :=
  match project !! Nom_Projet with
  | Some nom => ret (alert_text nom jours_stagnation)
  | None => raise (KeyError Nom_Projet)
  end.

(** Whether the status of a project is none of [Terminé], [Annulé]. *)
Definition not_terminal (project : dict cell) : bool :=
  negb (bool_decide (project !! Statut ∈ [Some (CStr Termine); Some (CStr Annule)])).

(** The loop of the sweep over the projects; [alerts] is the list built so
    far. *)
Fixpoint scan_projects (projects : list (dict cell)) (alerts : list str) : M (list str) :=
  match projects with
  | [] => ret alerts
  | project :: r =>
      if not_terminal project then
        match default (CInt 0) (project !! Jours_Stagnation) with
        | CInt jours_stagnation =>
            if (7 <? jours_stagnation)%Z then
              (line <- alert_line project jours_stagnation ;;
               scan_projects r (alerts ++ [line]))%py
            else scan_projects r alerts
        | CStr _ => scan_projects r alerts
        end
      else scan_projects r alerts
  end.

Definition Alertes_detectees : str :=
  [128680%N] ++ text " Alertes d" ++ [233%N] ++ text "tect" ++ [233%N] ++ text "es :" ++ [10%N].

(** [monitor_projects], the sweep that [start_monitoring] schedules. *)
Definition monitor_projects : M (list log_record) :=
  try_except
    (projects <- get_all_projects ;;
     alerts <- scan_projects projects [] ;;
     match alerts with
     | [] => ret []
     | _ :: _ => ret [LogWarning (Alertes_detectees ++ Py.join [10%N] alerts)]
     end)%py
    (fun e => ret [LogError e]).

Section Lower.

(** [str.lower], the case mapping of the interpreter. *)
Variable lower : str -> str.

(** The test of the loop of [ajouter_projet] on one line of the analysis. *)
Definition is_action_line (line : str) : bool :=
  Py.contains (text "action") (lower line) && (10 <? length line).

(** The loop of [ajouter_projet] over the lines of the analysis, up to its
    [break]; [prochaine_action] is the value before the loop. *)
Fixpoint first_action (lines : list str) (prochaine_action : str) : str :=
  match lines with
  | [] => prochaine_action
  | line :: r =>
      if is_action_line line then Py.slice (Py.strip line) 0 100
      else first_action r prochaine_action
  end.

(** The value [ajouter_projet] gives to [prochaine_action]. *)
Definition prochaine_action (project_analysis : str) : str :=
  if Py.contains (text "action") (lower project_analysis)
  then first_action (Py.split 10%N project_analysis) Analyser_les_besoins
  else Analyser_les_besoins.

(** The list [row_data] of [ajouter_projet]. *)
Definition row_data (nom_projet description : str) (priorite : Z) (deadline notes : str)
    (project_analysis project_summary current_date : str) : list cell :=
  [CStr nom_projet;
   CStr A_faire;
   CInt priorite;
   CStr description;
   CStr (prochaine_action project_analysis);
   CStr (if bool_decide (deadline = []) then [] else deadline);
   CStr current_date;
   CStr current_date;
   CInt 0;
   CStr [];
   CInt 0;
   CStr (notes ++ [10%N; 10%N] ++ text "Analyse IA : " ++ Py.slice project_summary 0 200 ++ text "...")].

(** The texts of a successful [ajouter_projet]. *)
Record project_report := {
  analysis : str;
  planning : str;
  summary : str
}.

(** [ajouter_projet]. The first three arguments are the replies of the
    research, planning and writing agents, [current_date] is the clock read
    as [%Y-%m-%d]. *)
Definition ajouter_projet (recherche planificateur redacteur : option str) (current_date : str)
    (nom_projet description : str) (priorite : Z) (deadline notes : str)
    : M (result project_report) :=
  try_except
    (project_analysis <- generate_reply recherche ;;
     planning_advice <- generate_reply planificateur ;;
     project_summary <- generate_reply redacteur ;;
     (fun self =>
        (Return tt,
         set_sheet (append_row (row_data nom_projet description priorite deadline notes
                                         project_analysis project_summary current_date)
                               (sheet self)) self)) ;;;
     refresh_projects_cache ;;;
     ret (Success {| analysis := project_analysis;
                     planning := planning_advice;
                     summary := project_summary |}))%py
    (fun e => ret (Error (OfException e))).

(** [mettre_a_jour_projet]: [redacteur] is the reply of the writing agent,
    [kwargs] the keyword arguments in the order given. *)
Definition mettre_a_jour_projet (redacteur : option str) (current_date : str)
    (nom_projet : str) (kwargs : list (str * cell))
    : M (result (list (str * cell) * str)) :=
  try_except
    (projects <- get_all_projects ;;
     match find_project_row nom_projet projects 2 with
     | None => ret (Error (Message Projet_non_trouve))
     | Some project_row =>
         for_each kwargs (fun kv =>
           match columns !! lower kv.1 with
           | Some c => update_cell project_row c kv.2
           | None => ret tt
           end) ;;;
         update_cell project_row 8 (CStr current_date) ;;;
         update_analysis <- generate_reply redacteur ;;
         ret (Success (kwargs, update_analysis))
     end)%py
    (fun e => ret (Error (OfException e))).

(** [v.lower()] on a cell read from the sheet: a number has no such
    method. *)
Definition cell_lower (v : cell) : M str :=
  match v with
  | CStr s => ret (lower s)
  | CInt _ => raise AttributeError
  end.

(** The test of [rechercher_projet] on one project; [or] stops at the first
    field that matches. *)
Definition project_matches (query_lower : str) (project : dict cell) : M bool :=
  (nom <- cell_lower (default (CStr []) (project !! Nom_Projet)) ;;
   if Py.contains query_lower nom then ret true else
   description <- cell_lower (default (CStr []) (project !! Description)) ;;
   if Py.contains query_lower description then ret true else
   notes <- cell_lower (default (CStr []) (project !! Notes)) ;;
   ret (Py.contains query_lower notes))%py.

(** The loop of [rechercher_projet]. *)
Fixpoint search_projects (query_lower : str) (projects results : list (dict cell))
    : M (list (dict cell)) :=
  match projects with
  | [] => ret results
  | project :: r =>
      (b <- project_matches query_lower project ;;
       search_projects query_lower r (if b : bool then results ++ [project] else results))%py
  end.

(** [rechercher_projet]. *)
Definition rechercher_projet (query : str) : M (list (dict cell)) :=
  (projects <- get_all_projects ;;
   search_projects (lower query) projects [])%py.

End Lower.

(** ** The words of the specification *)

(** The stagnation threshold that the configuration names,
    [config["monitoring"]["stagnation_alert_days"]]. *)
Definition configured_stagnation_threshold (config : dict json) : option Z :=
  match config !! text "monitoring" with
  | Some (JObj m) =>
      match m !! text "stagnation_alert_days" with
      | Some (JNum z) => Some z
      | _ => None
      end
  | _ => None
  end.

(** The rows the sweep reports: a status that is neither [Terminé] nor
    [Annulé] and a day count above 7. *)
Definition stagnant (project : dict cell) : bool :=
  not_terminal project &&
  match project !! Jours_Stagnation with
  | Some (CInt jours) => (7 <? jours)%Z
  | _ => false
  end.

(** The text of a cell, empty for a number. *)
Definition cell_str (v : cell) : str :=
  match v with
  | CStr s => s
  | CInt _ => []
  end.

(** A record whose name, description and notes are texts (or absent). *)
Definition textual (project : dict cell) : Prop :=
  ∀ key, key ∈ [Nom_Projet; Description; Notes] → ∀ z, project !! key ≠ Some (CInt z).

Section Words.

Variable lower : str -> str.

(** The search as specified: the query, in lower case, is a part of the
    name, of the description or of the notes in lower case. *)
Definition spec_matches (query : str) (project : dict cell) : bool :=
  Py.contains (lower query) (lower (cell_str (default (CStr []) (project !! Nom_Projet)))) ||
  Py.contains (lower query) (lower (cell_str (default (CStr []) (project !! Description)))) ||
  Py.contains (lower query) (lower (cell_str (default (CStr []) (project !! Notes)))).

(** The next action as specified: the first line that contains [action] in
    any case, cut at 100 characters; the default when there is none. *)
Fixpoint spec_first_action (lines : list str) : str :=
  match lines with
  | [] => Analyser_les_besoins
  | line :: r =>
      if Py.contains (text "action") (lower line) then take 100 line
      else spec_first_action r
  end.

Definition spec_prochaine_action (project_analysis : str) : str :=
  spec_first_action (Py.split 10%N project_analysis).

(** A line that contains [action] in lower case makes the text it belongs to
    contain it: the case mapping of a text goes through its lines. *)
Definition lower_by_line : Prop :=
  ∀ t line, line ∈ Py.split 10%N t →
    Py.contains (text "action") (lower line) = true →
    Py.contains (text "action") (lower t) = true.

End Words.

(** ** Sample data *)

Module Sample.

Definition En_cours : str := text "En cours".

(** A project row with the given name, status and day count. *)
Definition project_row (nom statut : str) (jours : Z) : list cell :=
  [CStr nom; CStr statut; CInt 1; CStr (text "Refonte"); CStr []; CStr (text "2025-12-01");
   CStr (text "2025-01-01"); CStr (text "2025-01-01"); CInt jours; CStr []; CInt 0;
   CStr (text "Client interne")].

(** A sheet with the canonical headers and two projects. *)
Definition sheet2 : worksheet :=
  [map CStr headers;
   project_row (text "Site web") En_cours 10;
   project_row (text "Archive") Termine 30].

(** The same rows under a header row whose first two columns are swapped. *)
Definition swapped : worksheet :=
  [map CStr (Statut :: Nom_Projet :: drop 2 headers);
   project_row (text "Site web") En_cours 10].

Definition agent_of (s : worksheet) : agent :=
  {| config := ∅; sheet := s; projects_cache := [] |}.

(** A machine whose configuration file renames the sheet and adds a key. *)
Definition override : dict json :=
  <[text "sheet_name" := JStr (text "Suivi")]> (<[text "langue" := JStr (text "fr")]> ∅).

Definition machine : system :=
  {| environ := ∅; disk := <[text "config.json" := JsonObject override]> ∅ |}.

(** An agent configured to alert after 3 days, with one project in progress
    that has not moved for 5 days. *)
Definition alert_after_3 : agent :=
  {| config := <[text "monitoring" := JObj (<[text "stagnation_alert_days" := JNum 3]> monitoring)]> ∅;
     sheet := [map CStr headers; project_row (text "Site web") En_cours 5];
     projects_cache := [] |}.

End Sample.

(** ** agent_projet.py: the research log *)

(** What the file [research_log.json] holds: a JSON array, or anything else
    (text that is not JSON, or a JSON document that is not an array, on
    which [json.load] or [logs.append] raises). *)
Inductive log_file :=
| LogList (logs : list json)
| NotAList.

(** The entry [log_entry] of [save_research_log]; [timestamp] is the clock
    read in ISO format. *)
Definition log_entry (timestamp query context result : str) : json :=
  JObj (<[text "timestamp" := JStr timestamp]>
       (<[text "query" := JStr query]>
       (<[text "context" := JStr context]>
       (<[text "result" := JStr (if 500 <? length result
                                 then Py.slice result 0 500 ++ text "..."
                                 else result)]> ∅)))).

(** [save_research_log]: the file [research_log.json] after the call, from
    the file before it ([None] when there is no file). An exception inside
    the method is handled there, and nothing is written. *)
Definition save_research_log (timestamp query result context : str)
    (file : option log_file) : option log_file :=
  match file with
  | Some NotAList => file
  | _ =>
      let logs := match file with Some (LogList l) => l | _ => [] end
                  ++ [log_entry timestamp query context result] in
      Some (LogList (if 100 <? length logs then drop (length logs - 100) logs else logs))
  end.

(** The texts of a successful [rechercher_information]. *)
Record research_report := {
  raw_analysis : str;
  planning_analysis : str;
  final_synthesis : str
}.

Definition kw_delai : str := text "d" ++ [233%N] ++ text "lai".
Definition kw_echeance : str := [233%N] ++ text "ch" ++ [233%N] ++ text "ance".

Section Information.

Variable lower : str -> str.

(** The test of [rechercher_information] that sends the analysis to the
    planning agent. *)
Definition needs_planning (query : str) : bool :=
  existsb (fun word => Py.contains word (lower query))
          [text "deadline"; text "planning"; kw_delai; kw_echeance].

(** [rechercher_information]: the first three arguments are the replies of
    the research, planning and writing agents ([None] for a request that
    fails); the planning agent is only asked when the query needs planning.
    The result comes with the file [research_log.json] after the call. *)
Definition rechercher_information (recherche planificateur redacteur : option str)
    (timestamp query project_context : str) (file : option log_file)
    : result research_report * option log_file :=
  match recherche with
  | None => (Error (OfException ReplyError), file)
  | Some recherche_result =>
      match (if needs_planning query then planificateur else Some []) with
      | None => (Error (OfException ReplyError), file)
      | Some planning_result =>
          match redacteur with
          | None => (Error (OfException ReplyError), file)
          | Some final_result =>
              (Success {| raw_analysis := recherche_result;
                          planning_analysis := planning_result;
                          final_synthesis := final_result |},
               save_research_log timestamp query final_result project_context file)
          end
      end
  end.

End Information.

(** ** agent_projet.py: the daily report and the health of a project *)

(** The exceptions of the reporting methods: those of the agent, and the
    [TypeError] of an operation on a number that needs a text. *)
Inductive exception :=
| Exn (e : exn)
| TypeError.

Inductive attempt (A : Type) :=
| Value (a : A)
| Throw (e : exception).
Arguments Value {A} a.
Arguments Throw {A} e.

Definition En_cours : str := text "En cours".
Definition Bloque : str := text "Bloqu" ++ [233%N].
Definition urgent_mark : str := [128680%N].

(** The dictionary [stats] of the daily report. *)
Record statistics := {
  total : nat;
  en_cours : nat;
  a_faire : nat;
  termines : nat;
  bloques : nat;
  urgents : nat
}.

(** The record of a successful daily report. *)
Record daily_report := {
  report_date : str;
  report_statistics : statistics;
  projets_critiques : list (dict cell);
  projets_retard : list (dict cell);
  report_analysis : str
}.

(** What [generer_rapport_quotidien] returns: [status] is [success] or
    [error]. *)
Inductive report_result :=
| Report (r : daily_report)
| ReportError (date : str) (e : exception).

(** [p.get('Statut') == statut]. *)
Definition has_status (statut : str) (project : dict cell) : bool :=
  bool_decide (project !! Statut = Some (CStr statut)).

(** The truth value of [project.get(key)]: a text that is not empty, or a
    number that is not 0. *)
Definition truthy (v : option cell) : bool :=
  match v with
  | Some (CStr s) => negb (bool_decide (s = []))
  | Some (CInt z) => negb (z =? 0)%Z
  | None => false
  end.

(** [[p for p in projects if '🚨' in p.get('Alerte', '')]]: [in] needs a
    text on its right. *)
Fixpoint urgent_projects (projects : list (dict cell)) : attempt (list (dict cell)) :=
  match projects with
  | [] => Value []
  | p :: r =>
      match default (CStr []) (p !! Alerte) with
      | CStr alerte =>
          match urgent_projects r with
          | Value l => Value (if Py.contains urgent_mark alerte then p :: l else l)
          | Throw e => Throw e
          end
      | CInt _ => Throw TypeError
      end
  end.

(** The health record of [analyze_project_health]. *)
Record health := {
  project_name : str;
  health_score : Z;
  health_level : str;
  issues : list str;
  recommendations : list str
}.

(** What [analyze_project_health] returns: the record
    [{"error": "Projet non trouvé"}] or a health record. *)
Inductive health_result :=
| ProjectNotFound
| Health (h : health).

Definition Excellente : str := [128994%N] ++ text " Excellente".
Definition Bonne : str := [128993%N] ++ text " Bonne".
Definition Preoccupante : str := [128992%N] ++ text " Pr" ++ [233%N] ++ text "occupante".
Definition Critique : str := [128308%N] ++ text " Critique".

Definition issue_stagnation_critique (jours : Z) : str :=
  [128680%N] ++ text " Stagnation critique: " ++ Py.str_of_int jours ++ text " jours".
Definition issue_stagnation_moderee (jours : Z) : str :=
  [9888%N] ++ text " Stagnation mod" ++ [233%N] ++ text "r" ++ [233%N] ++ text "e: "
  ++ Py.str_of_int jours ++ text " jours".
Definition issue_bloque : str := [128683%N] ++ text " Projet bloqu" ++ [233%N].
Definition issue_retard (jours : Z) : str :=
  [128197%N] ++ text " En retard de " ++ Py.str_of_int jours ++ text " jours".
Definition issue_deadline (jours : Z) : str :=
  [9200%N] ++ text " Deadline dans " ++ Py.str_of_int jours ++ text " jours".
Definition issue_progression : str := [128202%N] ++ text " Progression faible".

Definition reco_reunion : str :=
  [128222%N] ++ text " Planifier une r" ++ [233%N] ++ text "union d'" ++ [233%N]
  ++ text "quipe pour d" ++ [233%N] ++ text "bloquer le projet".
Definition reco_objectifs : str :=
  [128260%N] ++ text " Revoir les objectifs et priorit" ++ [233%N] ++ text "s".
Definition reco_blocages : str :=
  [128683%N] ++ text " Identifier les blocages et les ressources n" ++ [233%N] ++ text "cessaires".
Definition reco_escalader : str :=
  [129309%N] ++ text " Escalader aupr" ++ [232%N] ++ text "s des parties prenantes".
Definition reco_planning : str := [9201%N] ++ text " Revoir le planning et les livrables".
Definition reco_prioriser : str :=
  [128202%N] ++ text " Prioriser les t" ++ [226%N] ++ text "ches critiques".
Definition reco_decomposer : str :=
  [127919%N] ++ text " D" ++ [233%N] ++ text "composer en sous-t" ++ [226%N]
  ++ text "ches plus petites".
Definition reco_jalons : str :=
  [128200%N] ++ text " D" ++ [233%N] ++ text "finir des jalons interm" ++ [233%N]
  ++ text "diaires".

(** The level that [analyze_project_health] gives to a score. *)
Definition level_of (health_score : Z) : str :=
  if (80 <=? health_score)%Z then Excellente
  else if (60 <=? health_score)%Z then Bonne
  else if (40 <=? health_score)%Z then Preoccupante
  else Critique.

Section Reports.

(** [str.lower]. *)
Variable lower : str -> str.

(** [datetime.strptime(s, '%Y-%m-%d').date()] as the number of its day, or
    [None] when it raises [ValueError]. *)
Variable strptime : str -> option Z.

(** [datetime.now().date()], as the number of its day. *)
Variable today : Z.

(** The loop of the daily report over the deadlines; [retards] is the list
    built so far. A deadline that is a number makes [strptime] raise
    [TypeError], which the loop does not handle. *)
Fixpoint late_projects (projects retards : list (dict cell)) : attempt (list (dict cell)) :=
  match projects with
  | [] => Value retards
  | p :: r =>
      if truthy (p !! Deadline) && negb (has_status Termine p) then
        match p !! Deadline with
        | Some (CStr s) =>
            match strptime s with
            | Some deadline =>
                if (deadline <? today)%Z then late_projects r (retards ++ [p])
                else late_projects r retards
            | None => late_projects r retards
            end
        | _ => Throw TypeError
        end
      else late_projects r retards
  end.

(** [generer_rapport_quotidien]: [redacteur] is the reply of the writing
    agent, [current_date] the clock read as [%Y-%m-%d]. *)
Definition generer_rapport_quotidien (redacteur : option str) (current_date : str)
    (self : agent) : report_result :=
  let projects := get_all_records (sheet self) in
  match urgent_projects projects with
  | Throw e => ReportError current_date e
  | Value urgent =>
      let stats := {| total := length projects;
                      en_cours := length (List.filter (has_status En_cours) projects);
                      a_faire := length (List.filter (has_status A_faire) projects);
                      termines := length (List.filter (has_status Termine) projects);
                      bloques := length (List.filter (has_status Bloque) projects);
                      urgents := length urgent |} in
      let critiques :=
        List.filter (fun p => bool_decide (p !! Priorite = Some (CInt 1))
                              && negb (has_status Termine p)) projects in
      match late_projects projects [] with
      | Throw e => ReportError current_date e
      | Value retards =>
          match redacteur with
          | None => ReportError current_date (Exn ReplyError)
          | Some rapport_analysis =>
              Report {| report_date := current_date;
                        report_statistics := stats;
                        projets_critiques := critiques;
                        projets_retard := retards;
                        report_analysis := rapport_analysis |}
          end
      end
  end.

(** [any(word in issue.lower() for issue in issues)]. *)
Definition mentions (word : str) (issues : list str) : bool :=
  existsb (fun issue => Py.contains word (lower issue)) issues.

(** [generate_recommendations]. *)
Definition generate_recommendations (project : dict cell) (issues : list str) : list str :=
  (if mentions (text "stagnation") issues then [reco_reunion; reco_objectifs] else [])
  ++ (if mentions (text "bloqu" ++ [233%N]) issues then [reco_blocages; reco_escalader] else [])
  ++ (if mentions (text "retard") issues then [reco_planning; reco_prioriser] else [])
  ++ (if mentions (text "progression") issues then [reco_decomposer; reco_jalons] else []).

(** The score and the issues of [analyze_project_health] after the check of
    the stagnation. *)
Definition check_stagnation (project : dict cell) : Z * list str :=
  match default (CInt 0) (project !! Jours_Stagnation) with
  | CInt jours_stagnation =>
      if (14 <? jours_stagnation)%Z
      then (100 - 30, [issue_stagnation_critique jours_stagnation])%Z
      else if (7 <? jours_stagnation)%Z
      then (100 - 15, [issue_stagnation_moderee jours_stagnation])%Z
      else (100%Z, [])
  | CStr _ => (100%Z, [])
  end.

(** The check of the status. *)
Definition check_statut (project : dict cell) (acc : Z * list str) : Z * list str :=
  if has_status Bloque project then (acc.1 - 40, acc.2 ++ [issue_bloque])%Z else acc.

(** The check of the deadline: only [ValueError] is handled. *)
Definition check_deadline (project : dict cell) (acc : Z * list str) : attempt (Z * list str) :=
  if truthy (project !! Deadline) then
    match project !! Deadline with
    | Some (CStr s) =>
        match strptime s with
        | Some deadline =>
            let days_remaining := (deadline - today)%Z in
            if (days_remaining <? 0)%Z
            then Value (acc.1 - 50, acc.2 ++ [issue_retard (Z.abs days_remaining)])%Z
            else if (days_remaining <=? 3)%Z
            then Value (acc.1 - 20, acc.2 ++ [issue_deadline days_remaining])%Z
            else Value acc
        | None => Value acc
        end
    | _ => Throw TypeError
    end
  else Value acc.

(** The check of the progression. *)
Definition check_progression (project : dict cell) (acc : Z * list str) : Z * list str :=
  match default (CInt 0) (project !! Progression) with
  | CInt progression =>
      if (progression <? 25)%Z && has_status En_cours project
      then (acc.1 - 10, acc.2 ++ [issue_progression])%Z
      else acc
  | CStr _ => acc
  end.

(** [analyze_project_health]: the project is the first one that
    [rechercher_projet] returns for the name. *)
Definition analyze_project_health (project_name : str) (self : agent) : attempt health_result :=
  match (rechercher_projet lower project_name self).1 with
  | Raise e => Throw (Exn e)
  | Return [] => Value ProjectNotFound
  | Return (project :: _) =>
      match check_deadline project (check_statut project (check_stagnation project)) with
      | Throw e => Throw e
      | Value acc =>
          let '(health_score, issues) := check_progression project acc in
          Value (Health {| project_name := project_name;
                           health_score := Z.max 0 health_score;
                           health_level := level_of health_score;
                           issues := issues;
                           recommendations := generate_recommendations project issues |})
      end
  end.

End Reports.

Section ReportWords.

Variable strptime : str -> option Z.
Variable today : Z.

(** A late project: a deadline that is set and reads as a day before today,
    and a status other than [Terminé]. *)
Definition is_late (project : dict cell) : bool :=
  truthy (project !! Deadline) && negb (has_status Termine project) &&
  match project !! Deadline with
  | Some (CStr s) =>
      match strptime s with
      | Some deadline => (deadline <? today)%Z
      | None => false
      end
  | _ => false
  end.

End ReportWords.

(** A critical project: priority 1 and a status other than [Terminé]. *)
Definition is_critical (project : dict cell) : bool :=
  bool_decide (project !! Priorite = Some (CInt 1)) && negb (has_status Termine project).

(** ** More sample data *)

Module Fixtures.

(** A calendar for the examples: the text [2025-01-DD] is day [DD]. *)
Definition strptime (s : str) : option Z :=
  match s with
  | [50; 48; 50; 53; 45; 48; 49; 45; d1; d2]%N =>
      if ((48 <=? d1) && (d1 <=? 51) && (48 <=? d2) && (d2 <=? 57))%N
      then Some (Z.of_N ((d1 - 48) * 10 + (d2 - 48)))
      else None
  | _ => None
  end.

(** A project row with every field chosen. *)
Definition row (nom statut : str) (priorite : Z) (deadline : cell) (jours : Z) (alerte : cell)
    (progression : Z) : list cell :=
  [CStr nom; CStr statut; CInt priorite; CStr (text "Refonte"); CStr []; deadline;
   CStr (text "2025-01-01"); CStr (text "2025-01-01"); CInt jours; alerte; CInt progression;
   CStr (text "Client interne")].

(** Three projects: one late and blocked, one finished, one without a
    usable deadline. *)
Definition portfolio : worksheet :=
  [map CStr headers;
   row (text "Site web") Bloque 1 (CStr (text "2025-01-05")) 20 (CStr urgent_mark) 10;
   row (text "Archive") Termine 1 (CStr (text "2025-01-02")) 30 (CStr []) 100;
   row (text "Intranet") En_cours 2 (CStr (text "bientot")) 3 (CStr []) 50].

(** A sheet whose first project has a number as its name. *)
Definition numbered : worksheet :=
  [map CStr headers;
   [CInt 2024; CStr En_cours; CInt 1; CStr (text "Bilan")];
   row (text "Intranet") En_cours 2 (CStr []) 3 (CStr []) 50].

(** A sheet whose header row has no [Nom_Projet], with two stagnant
    projects. *)
Definition nameless : worksheet :=
  [map CStr (text "Projet" :: drop 1 headers);
   row (text "Site web") En_cours 1 (CStr []) 20 (CStr []) 10;
   row (text "Intranet") En_cours 2 (CStr []) 9 (CStr []) 50].

(** A sheet with a number in the alert column. *)
Definition numeric_alert : worksheet :=
  [map CStr headers;
   row (text "Site web") En_cours 1 (CStr []) 2 (CInt 5) 10].

Definition agent_of (s : worksheet) : agent :=
  {| config := ∅; sheet := s; projects_cache := [] |}.

(** A machine at its first run: no configuration file, and the name of the
    sheet given by the environment. *)
Definition first_run : system :=
  {| environ := <[text "SHEET_NAME" := text "Suivi"]> ∅; disk := ∅ |}.

(** A research log that is full. *)
Definition full_log : list json := replicate 100 JNull.

End Fixtures.

(** * Properties *)

(** ** The relay: chunked replies *)

Section Chunks.

Context {A : Type}.
Implicit Types (s : list A) (limit fuel i k : nat).

Lemma slice_length s i limit : length (Py.slice s i (i + limit)) ≤ limit.
Proof.
  unfold Py.slice. rewrite length_take. lia.
Qed.

Lemma slice_from s i limit : Py.slice s i (i + limit) = take limit (drop i s).
Proof.
  unfold Py.slice. f_equal. lia.
Qed.

(** The loop covers the text from its current index to the end. *)
Lemma concat_range_from s limit fuel i :
  0 < limit → length s ≤ fuel + i →
  concat (map (fun i => Py.slice s i (i + limit)) (Py.range_from fuel i (length s) limit))
  = drop i s.
Proof.
  intros Hlimit. revert i. induction fuel as [|fuel IH]; intros i Hfuel; simpl.
  - symmetry. apply drop_ge. lia.
  - destruct (Nat.ltb_spec i (length s)) as [Hlt|Hge]; simpl.
    + rewrite IH by lia. rewrite slice_from, <- drop_drop.
      apply take_drop.
    + symmetry. apply drop_ge. lia.
Qed.

(** The [k]-th index of the loop. *)
Lemma range_from_lookup limit fuel i stop k j :
  Py.range_from fuel i stop limit !! k = Some j → j = i + k * limit ∧ j < stop.
Proof.
  revert i k. induction fuel as [|fuel IH]; intros i k; simpl; [done|].
  destruct (Nat.ltb_spec i stop) as [Hlt|Hge]; [|done].
  destruct k as [|k]; simpl.
  - intros [= <-]. lia.
  - intros Hk. apply IH in Hk. lia.
Qed.

End Chunks.

Lemma send_chunks_concat limit (contenu : str) :
  0 < limit → concat (Go.send_chunks limit contenu) = contenu.
Proof.
  intros Hlimit. unfold Go.send_chunks, Py.range.
  rewrite concat_range_from by lia. done.
Qed.

Lemma send_chunks_lookup limit (contenu : str) k m :
  0 < limit → Go.send_chunks limit contenu !! k = Some m →
  m = take limit (drop (k * limit) contenu) ∧ 0 < length m ≤ limit.
Proof.
  intros Hlimit. unfold Go.send_chunks, Py.range.
  rewrite list_lookup_fmap.
  destruct (Py.range_from _ _ _ _ !! k) as [j|] eqn:Hj; [|done].
  apply range_from_lookup in Hj as [-> Hlt]. simpl. intros [= <-].
  rewrite slice_from. split; [done|].
  rewrite length_take, length_drop. lia.
Qed.

(** C9. Whatever the text of the reply, [handle_message] sends it as
    messages of at least one and at most 4000 characters, the [k]-th message
    being the 4000 characters from index [4000 * k] on, and the messages put
    end to end are the reply. *)
Theorem handle_message_chunks (contenu : str) :
  let sent := Go.handle_message (Some contenu) in
  concat sent = contenu ∧
  Forall (fun m : str => 0 < length m ≤ 4000) sent ∧
  ∀ k m, sent !! k = Some m → m = take 4000 (drop (k * 4000) contenu).
Proof.
  simpl. split; [|split].
  - apply send_chunks_concat. lia.
  - apply Forall_lookup. intros k m Hk.
    apply send_chunks_lookup in Hk; [tauto | lia].
  - intros k m Hk. apply send_chunks_lookup in Hk; [tauto | lia].
Qed.

(** ** The worksheet: reading a cell after a write *)

Section Pad.

Context {A : Type}.
Implicit Types (d : A) (l : list A) (n k : nat).

Lemma length_pad d n l : length (pad d n l) = max n (length l).
Proof.
  unfold pad. rewrite length_app, length_replicate. lia.
Qed.

(** Padding with the default does not change what a lookup with that
    default reads. *)
Lemma lookup_pad_default d n l k : default d (pad d n l !! k) = default d (l !! k).
Proof.
  unfold pad. destruct (decide (k < length l)) as [Hlt|Hge].
  - by rewrite lookup_app_l.
  - rewrite lookup_app_r, (lookup_ge_None_2 l k) by lia. simpl.
    destruct (replicate _ _ !! _) as [x|] eqn:Hx; [|done].
    by apply lookup_replicate in Hx as [-> _].
Qed.

Lemma lookup_insert_pad_eq d l k x :
  <[k := x]> (pad d (S k) l) !! k = Some x.
Proof.
  apply list_lookup_insert_eq. rewrite length_pad. lia.
Qed.

End Pad.

Lemma cell_value_write_eq i j v (s : worksheet) :
  cell_value (write i j v s) (S i) (S j) = v.
Proof.
  unfold cell_value, write.
  rewrite lookup_insert_pad_eq. simpl.
  by rewrite lookup_insert_pad_eq.
Qed.

Lemma cell_value_write_ne i j v (s : worksheet) r c :
  (r, c) ≠ (S i, S j) → cell_value (write i j v s) r c = cell_value s r c.
Proof.
  intros Hne. destruct r as [|r], c as [|c]; try done.
  unfold cell_value, write.
  destruct (decide (r = i)) as [->|Hr].
  - rewrite lookup_insert_pad_eq. simpl.
    rewrite list_lookup_insert_ne by congruence.
    apply (lookup_pad_default blank).
  - rewrite list_lookup_insert_ne by done.
    by rewrite (lookup_pad_default []).
Qed.

(** A write keeps the rows that were there, and their count. *)
Lemma length_write i j v (s : worksheet) : length (write i j v s) = max (S i) (length s).
Proof.
  unfold write. by rewrite length_insert, length_pad.
Qed.

(** ** The header row *)

Lemma row_values_headers : row_values 1 [map CStr headers] = headers.
Proof. reflexivity. Qed.

(** C3. When the texts of row 1 are not the canonical twelve headers in
    their order (an absent row reads as the empty list), the header setup
    leaves a sheet that holds the canonical header row and nothing else: no
    project record, every cell below row 1 empty. When row 1 reads as the
    canonical headers, the setup changes nothing. *)
Theorem setup_sheet_headers_enforces (self : agent) :
  (row_values 1 (sheet self) ≠ headers →
     setup_sheet_headers self = (Return tt, set_sheet [map CStr headers] self) ∧
     row_values 1 (sheet (setup_sheet_headers self).2) = headers ∧
     get_all_records (sheet (setup_sheet_headers self).2) = [] ∧
     ∀ r c, 1 < r → cell_value (sheet (setup_sheet_headers self).2) r c = blank) ∧
  (row_values 1 (sheet self) = headers →
     setup_sheet_headers self = (Return tt, self)).
Proof.
  unfold setup_sheet_headers. split; intros Hrow.
  - rewrite (bool_decide_eq_false_2 (_ = headers)) by done.
    rewrite orb_true_r. simpl. repeat split.
    intros [|[|r]] [|c] Hr; solve [lia | done | by destruct r].
  - rewrite Hrow. done.
Qed.

(** After the setup row 1 always reads as the canonical headers. *)
Lemma setup_sheet_headers_post (self : agent) :
  row_values 1 (sheet (setup_sheet_headers self).2) = headers.
Proof.
  unfold setup_sheet_headers.
  destruct (decide (row_values 1 (sheet self) = headers)) as [Heq|Hne].
  - by rewrite Heq.
  - rewrite (bool_decide_eq_false_2 (_ = headers)) by done.
    by rewrite orb_true_r.
Qed.

(** ** Updating a project *)

(** The scan for a project by name finds the first record of that name. *)
Lemma find_project_row_Some nom_projet projects i row :
  find_project_row nom_projet projects i = Some row ↔
  ∃ k project, row = i + k ∧ projects !! k = Some project ∧
    project !! Nom_Projet = Some (CStr nom_projet) ∧
    ∀ k' p', k' < k → projects !! k' = Some p' → p' !! Nom_Projet ≠ Some (CStr nom_projet).
Proof.
  revert i. induction projects as [|p projects IH]; intros i; simpl.
  - split; [done|]. intros (k & project & _ & Hk & _). done.
  - case_bool_decide as Hp.
    + split.
      * intros [= <-]. exists 0, p. repeat split; [lia | done | lia].
      * intros (k & project & -> & Hk & Hname & Hfirst).
        destruct k as [|k]; [f_equal; lia|].
        exfalso. apply (Hfirst 0 p); [lia | done | done].
    + rewrite IH. split.
      * intros (k & project & -> & Hk & Hname & Hfirst).
        exists (S k), project. repeat split; [lia | done | done |].
        intros [|k'] p' Hlt; simpl; [by intros [= <-]|].
        apply Hfirst. lia.
      * intros (k & project & -> & Hk & Hname & Hfirst).
        destruct k as [|k]; simpl in Hk; [congruence|].
        exists k, project. repeat split; [lia | done | done |].
        intros k' p' Hlt Hk'. apply (Hfirst (S k') p'); [lia | done].
Qed.

Lemma find_project_row_None nom_projet projects i :
  find_project_row nom_projet projects i = None ↔
  ∀ project, project ∈ projects → project !! Nom_Projet ≠ Some (CStr nom_projet).
Proof.
  revert i. induction projects as [|p projects IH]; intros i; simpl.
  - split; [|done]. intros _ project Hin. by apply elem_of_nil in Hin.
  - case_bool_decide as Hp.
    + split; [done|]. intros Hall. exfalso. apply (Hall p); [left | done].
    + rewrite IH. split.
      * intros Hall project [->|Hin]%elem_of_cons; [done | by apply Hall].
      * intros Hall project Hin. apply Hall. by right.
Qed.

(** C4. When no record of the sheet carries the name, [mettre_a_jour_projet]
    returns the error [Projet non trouvé] and leaves the agent, hence every
    cell of the sheet, as it was. *)
Theorem mettre_a_jour_projet_not_found (lower : str → str) (redacteur : option str)
    (current_date nom_projet : str) (kwargs : list (str * cell)) (self : agent) :
  (∀ project, project ∈ get_all_records (sheet self) →
     project !! Nom_Projet ≠ Some (CStr nom_projet)) →
  mettre_a_jour_projet lower redacteur current_date nom_projet kwargs self
  = (Return (Error (Message Projet_non_trouve)), self).
Proof.
  intros Hnone. apply (find_project_row_None _ _ 2) in Hnone.
  unfold mettre_a_jour_projet, try_except, bind, get_all_projects.
  by rewrite Hnone.
Qed.

Lemma columns_statut : columns !! text "statut" = Some 2.
Proof. reflexivity. Qed.

(** C5. For a project of the sheet, [k] being the index of the first record
    of that name (sheet row [k + 2]), an update whose only keyword is
    [statut] (in any case) writes the new status in column 2 and the current
    date in column 8 of that row; every other cell of the sheet is as
    before. The call reports success with the writer's analysis, or the
    writer's failure once the two cells are written. *)
Theorem mettre_a_jour_projet_statut (lower : str → str) (redacteur : option str)
    (current_date nom_projet field : str) (value : cell) (self : agent)
    (k : nat) (project : dict cell) :
  lower field = text "statut" →
  get_all_records (sheet self) !! k = Some project →
  project !! Nom_Projet = Some (CStr nom_projet) →
  (∀ k' p', k' < k → get_all_records (sheet self) !! k' = Some p' →
     p' !! Nom_Projet ≠ Some (CStr nom_projet)) →
  ∃ after,
    mettre_a_jour_projet lower redacteur current_date nom_projet [(field, value)] self
    = (Return (match redacteur with
               | Some update_analysis => Success ([(field, value)], update_analysis)
               | None => Error (OfException ReplyError)
               end), after) ∧
    cell_value (sheet after) (k + 2) 2 = value ∧
    cell_value (sheet after) (k + 2) 8 = CStr current_date ∧
    (∀ r c, (r, c) ≠ (k + 2, 2) → (r, c) ≠ (k + 2, 8) →
       cell_value (sheet after) r c = cell_value (sheet self) r c) ∧
    config after = config self ∧ projects_cache after = projects_cache self.
Proof.
  intros Hfield Hk Hname Hfirst.
  assert (find_project_row nom_projet (get_all_records (sheet self)) 2 = Some (S (S k)))
    as Hrow.
  { apply find_project_row_Some. exists k, project. by repeat split. }
  replace (k + 2) with (S (S k)) by lia.
  exists (set_sheet (write (S k) 7 (CStr current_date) (write (S k) 1 value (sheet self))) self).
  split; [|split; [|split; [|split]]].
  - unfold mettre_a_jour_projet, try_except, bind, get_all_projects.
    rewrite Hrow. simpl. unfold bind. simpl. rewrite Hfield, columns_statut. simpl.
    by destruct redacteur.
  - cbn [sheet set_sheet]. rewrite cell_value_write_ne by congruence.
    apply cell_value_write_eq.
  - cbn [sheet set_sheet]. apply cell_value_write_eq.
  - intros r c H2 H8. cbn [sheet set_sheet]. by rewrite !cell_value_write_ne.
  - done.
Qed.

Lemma mettre_a_jour_projet_statut_witness :
  ∃ after,
    mettre_a_jour_projet Py.ascii_lower (Some (text "ok")) (text "2025-02-02") (text "Site web")
      [(text "Statut", CStr Termine)] (Sample.agent_of Sample.sheet2)
    = (Return (Success ([(text "Statut", CStr Termine)], text "ok")), after) ∧
    cell_value (sheet after) 2 2 = CStr Termine ∧
    cell_value (sheet after) 2 8 = CStr (text "2025-02-02").
Proof.
  destruct (mettre_a_jour_projet_statut Py.ascii_lower (Some (text "ok")) (text "2025-02-02")
              (text "Site web") (text "Statut") (CStr Termine)
              (Sample.agent_of Sample.sheet2) 0
              (dict_zip headers (Sample.project_row (text "Site web") Sample.En_cours 10)))
    as (after & Hcall & Hstatut & Hdate & _).
  - reflexivity.
  - reflexivity.
  - vm_compute. reflexivity.
  - intros k' p' Hlt. lia.
  - exists after. repeat split; assumption.
Defined.

(** ** Loading the configuration *)

(** C6. When the file holds a JSON object, the record loaded gives every
    key of the file the value of the file and every other key its built-in
    default, and the disk is not touched. When there is no file, the
    defaults are returned and are what the file at that path now holds, the
    other files being as before. *)
Theorem _load_config_merge (sys : system) (config_path : str) :
  (∀ config, disk sys !! config_path = Some (JsonObject config) →
     ∃ loaded, _load_config sys config_path = (Return loaded, sys) ∧
       (∀ key value, config !! key = Some value → loaded !! key = Some value) ∧
       (∀ key, config !! key = None → loaded !! key = default_config sys !! key)) ∧
  (disk sys !! config_path = None →
     ∃ after, _load_config sys config_path = (Return (default_config sys), after) ∧
       disk after !! config_path = Some (JsonObject (default_config sys)) ∧
       (∀ path, path ≠ config_path → disk after !! path = disk sys !! path) ∧
       environ after = environ sys).
Proof.
  unfold _load_config. split.
  - intros config ->. eexists. split; [done|]. unfold update. split.
    + intros key value Hkey. by apply lookup_union_Some_l.
    + intros key Hkey. by apply lookup_union_r.
  - intros ->. eexists. split; [done|]. simpl. split; [|split; [|done]].
    + apply lookup_insert_eq.
    + intros path Hpath. by apply lookup_insert_ne.
Qed.

Lemma _load_config_merge_witness :
  ∃ loaded, _load_config Sample.machine (text "config.json") = (Return loaded, Sample.machine) ∧
    loaded !! text "sheet_name" = Some (JStr (text "Suivi")) ∧
    loaded !! text "langue" = Some (JStr (text "fr")) ∧
    loaded !! text "monitoring" = Some (JObj monitoring).
Proof.
  destruct (proj1 (_load_config_merge Sample.machine (text "config.json")) Sample.override)
    as (loaded & Hload & Hfile & Hdefault).
  - reflexivity.
  - exists loaded. split; [exact Hload|]. split; [|split].
    + apply Hfile. reflexivity.
    + apply Hfile. reflexivity.
    + rewrite Hdefault; reflexivity.
Defined.

(** ** Adding a project *)

(** When one of the three agents fails, [ajouter_projet] reports the failure
    and appends nothing. *)
Lemma ajouter_projet_failed (lower : str → str) (recherche planificateur redacteur : option str)
    (current_date nom_projet description : str) (priorite : Z) (deadline notes : str)
    (self : agent) :
  recherche = None ∨ planificateur = None ∨ redacteur = None →
  ajouter_projet lower recherche planificateur redacteur current_date
    nom_projet description priorite deadline notes self
  = (Return (Error (OfException ReplyError)), self).
Proof.
  unfold ajouter_projet, try_except, bind.
  destruct recherche, planificateur, redacteur; simpl; intros [H|[H|H]]; done.
Qed.

(** C7. A call of [ajouter_projet] whose agents answer appends one row to
    the sheet; read under the canonical headers, the row has status
    [À faire], creation date and last-update date equal to the date of the
    call, 0 days of stagnation and a progression of 0. *)
Theorem ajouter_projet_row (lower : str → str)
    (project_analysis planning_advice project_summary current_date : str)
    (nom_projet description : str) (priorite : Z) (deadline notes : str) (self : agent) :
  ∃ row after,
    ajouter_projet lower (Some project_analysis) (Some planning_advice) (Some project_summary)
      current_date nom_projet description priorite deadline notes self
    = (Return (Success {| analysis := project_analysis; planning := planning_advice;
                          summary := project_summary |}), after) ∧
    sheet after = sheet self ++ [row] ∧
    length row = 12 ∧
    dict_zip headers row !! Nom_Projet = Some (CStr nom_projet) ∧
    dict_zip headers row !! Statut = Some (CStr A_faire) ∧
    dict_zip headers row !! Date_Creation = Some (CStr current_date) ∧
    dict_zip headers row !! Derniere_MAJ = Some (CStr current_date) ∧
    dict_zip headers row !! Jours_Stagnation = Some (CInt 0) ∧
    dict_zip headers row !! Progression = Some (CInt 0).
Proof.
  eexists. eexists. split; [reflexivity|].
  split; [reflexivity|]. split; [reflexivity|].
  repeat split; vm_compute; reflexivity.
Qed.

(** C10. The notes cell of the row that [ajouter_projet] appends is the
    notes argument, then an empty line and [Analyse IA : ] with the first 200
    characters of the writer's summary and three dots: never the notes
    argument alone. *)
Theorem ajouter_projet_notes (lower : str → str)
    (project_analysis planning_advice project_summary current_date : str)
    (nom_projet description : str) (priorite : Z) (deadline notes : str) (self : agent) :
  ∃ row after,
    ajouter_projet lower (Some project_analysis) (Some planning_advice) (Some project_summary)
      current_date nom_projet description priorite deadline notes self
    = (Return (Success {| analysis := project_analysis; planning := planning_advice;
                          summary := project_summary |}), after) ∧
    sheet after = sheet self ++ [row] ∧
    dict_zip headers row !! Notes
    = Some (CStr (notes ++ [10%N; 10%N] ++ text "Analyse IA : "
                  ++ take 200 project_summary ++ text "...")) ∧
    dict_zip headers row !! Notes ≠ Some (CStr notes).
Proof.
  eexists. eexists. split; [reflexivity|]. split; [reflexivity|].
  assert (dict_zip headers (row_data lower nom_projet description priorite deadline notes
                              project_analysis project_summary current_date) !! Notes
          = Some (CStr (notes ++ [10%N; 10%N] ++ text "Analyse IA : "
                        ++ take 200 project_summary ++ text "..."))) as Hnotes.
  { unfold row_data, Py.slice. rewrite Nat.sub_0_r, drop_0.
    generalize (take 200 project_summary). intros summary200.
    generalize (prochaine_action lower project_analysis). intros action.
    generalize (if bool_decide (deadline = []) then [] else deadline). intros d.
    vm_compute. reflexivity. }
  split; [exact Hnotes|].
  rewrite Hnotes. intros [= Heq].
  rewrite <- (app_nil_r notes) in Heq at 2.
  apply app_inv_head in Heq. discriminate Heq.
Qed.

(** ** Searching the projects *)

Section Search.

Variable lower : str → str.

Lemma cell_lower_textual (project : dict cell) (key : str) (self : agent) :
  textual project → key ∈ [Nom_Projet; Description; Notes] →
  cell_lower lower (default (CStr []) (project !! key)) self
  = (Return (lower (cell_str (default (CStr []) (project !! key)))), self).
Proof.
  intros Htext Hkey. specialize (Htext key Hkey).
  destruct (project !! key) as [[z|s]|]; [|done..].
  by destruct (Htext z).
Qed.

Lemma project_matches_textual (query : str) (project : dict cell) (self : agent) :
  textual project →
  project_matches lower (lower query) project self
  = (Return (spec_matches lower query project), self).
Proof.
  intros Htext. unfold project_matches, spec_matches, bind.
  rewrite !cell_lower_textual by (done || set_solver).
  destruct (Py.contains _ (lower (cell_str (default _ (project !! Nom_Projet))))); [done|].
  rewrite !cell_lower_textual by (done || set_solver).
  destruct (Py.contains _ (lower (cell_str (default _ (project !! Description))))); [done|].
  by rewrite !cell_lower_textual by (done || set_solver).
Qed.

Lemma search_projects_filter (query : str) (projects results : list (dict cell)) (self : agent) :
  Forall textual projects →
  search_projects lower (lower query) projects results self
  = (Return (results ++ List.filter (spec_matches lower query) projects), self).
Proof.
  intros Htext. revert results.
  induction Htext as [|project projects Hp _ IH]; intros results; simpl.
  - by rewrite app_nil_r.
  - unfold bind. rewrite project_matches_textual by done.
    rewrite IH. destruct (spec_matches lower query project); [|done].
    by rewrite <- app_assoc.
Qed.

End Search.

Lemma filter_none {A} (f : A → bool) (l : list A) :
  (∀ x, x ∈ l → f x = false) → List.filter f l = [].
Proof.
  induction l as [|x l IH]; intros Hnone; simpl; [done|].
  rewrite Hnone by left. apply IH. intros y Hy. apply Hnone. by right.
Qed.

(** C8. On a sheet whose names, descriptions and notes are texts,
    [rechercher_projet] returns, in the order of the sheet and without a
    limit, exactly the records in which the query is part of the name, of
    the description or of the notes, all taken in lower case; when no record
    has it in any of the three, the result is the empty list. The sheet is
    not modified. *)
Theorem rechercher_projet_matches (lower : str → str) (query : str) (self : agent) :
  Forall textual (get_all_records (sheet self)) →
  rechercher_projet lower query self
  = (Return (List.filter (spec_matches lower query) (get_all_records (sheet self))), self) ∧
  ((∀ project, project ∈ get_all_records (sheet self) →
      spec_matches lower query project = false) →
   rechercher_projet lower query self = (Return [], self)).
Proof.
  intros Htext.
  assert (rechercher_projet lower query self
          = (Return (List.filter (spec_matches lower query) (get_all_records (sheet self))), self))
    as Hsearch.
  { unfold rechercher_projet, bind, get_all_projects.
    by rewrite search_projects_filter. }
  split; [exact Hsearch|].
  intros Hnone. rewrite Hsearch. do 2 f_equal. by apply filter_none.
Qed.

Lemma rechercher_projet_matches_witness :
  rechercher_projet Py.ascii_lower (text "SITE") (Sample.agent_of Sample.sheet2)
  = (Return [dict_zip headers (Sample.project_row (text "Site web") Sample.En_cours 10)],
     Sample.agent_of Sample.sheet2).
Proof.
  rewrite (proj1 (rechercher_projet_matches Py.ascii_lower (text "SITE")
                    (Sample.agent_of Sample.sheet2)
                    ltac:(repeat constructor; intros key Hkey z;
                          repeat (apply elem_of_cons in Hkey as [->|Hkey];
                                  [vm_compute; discriminate|]);
                          by apply elem_of_nil in Hkey))).
  reflexivity.
Defined.

(** ** The next action of a new project *)

Section Texts.

Implicit Types (needle hay line t pre post : str).

Lemma starts_with_app needle hay post :
  Py.starts_with needle hay = true → Py.starts_with needle (hay ++ post) = true.
Proof.
  revert hay. induction needle as [|a needle IH]; intros [|b hay]; simpl; try done.
  intros [Hab Hrest]%andb_true_iff. rewrite Hab. simpl. by apply IH.
Qed.

Lemma contains_app needle pre hay post :
  Py.contains needle hay = true → Py.contains needle (pre ++ hay ++ post) = true.
Proof.
  intros Hhay. induction pre as [|c pre IH]; simpl.
  - clear -Hhay. induction hay as [|b hay IH]; simpl in *.
    + apply orb_true_iff in Hhay as [Hs|]; [|done].
      destruct needle; [|done]. by destruct post.
    + apply orb_true_iff in Hhay as [Hs|Hin].
      * apply orb_true_iff. left. by apply (starts_with_app needle (b :: hay)).
      * apply orb_true_iff. right. by apply IH.
  - rewrite IH. apply orb_true_r.
Qed.

(** The first piece of a split text is the start of the text. *)
Lemma split_head sep t line lines :
  Py.split sep t = line :: lines → ∃ post, t = line ++ post.
Proof.
  destruct t as [|c r]; simpl.
  - intros [= <- <-]. by exists [].
  - destruct (c =? sep)%N.
    + intros [= <- <-]. by exists (c :: r).
    + revert line lines. induction r as [|c' r IH] in c |- *; intros line lines; simpl.
      * intros [= <- <-]. by exists [].
      * destruct (c' =? sep)%N.
        -- intros [= <- <-]. by exists (c' :: r).
        -- destruct (match Py.split sep r with [] => [[c']] | l :: ls => (c' :: l) :: ls end)
             as [|l ls] eqn:Hr; intros [= <- <-].
           ++ by exists (c' :: r).
           ++ destruct (IH c' l ls) as [post Hpost]; [done|].
              exists post. simpl. by rewrite <- Hpost.
Qed.

(** Every piece of a split text is a part of the text. *)
Lemma split_elem sep t line :
  line ∈ Py.split sep t → ∃ pre post, t = pre ++ line ++ post.
Proof.
  induction t as [|c r IH] in line |- *; simpl.
  - intros ->%list_elem_of_singleton. by exists [], [].
  - destruct (c =? sep)%N.
    + intros [->|Hin]%elem_of_cons.
      * by exists [], (c :: r).
      * destruct (IH _ Hin) as (pre & post & ->). by exists (c :: pre), post.
    + destruct (Py.split sep r) as [|l ls] eqn:Hr.
      * intros ->%list_elem_of_singleton. by exists [], r.
      * intros [->|Hin]%elem_of_cons.
        -- destruct (split_head _ _ _ _ Hr) as [post ->]. by exists [], post.
        -- destruct (IH line) as (pre & post & ->); [by right|].
           by exists (c :: pre), post.
Qed.

End Texts.

(** The ASCII case mapping goes through the lines of a text. *)
Lemma ascii_lower_by_line : lower_by_line Py.ascii_lower.
Proof.
  intros t line Hline Haction.
  destruct (split_elem _ _ _ Hline) as (pre & post & ->).
  unfold Py.ascii_lower. rewrite !map_app. by apply contains_app.
Qed.

Section NextAction.

Variable lower : str → str.

Lemma first_action_found (before : list str) (line : str) (after : list str) (d : str) :
  is_action_line lower line = true →
  Forall (fun l => is_action_line lower l = false) before →
  first_action lower (before ++ line :: after) d = take 100 (Py.strip line).
Proof.
  intros Hline Hbefore. induction Hbefore as [|l before Hl _ IH]; simpl.
  - rewrite Hline. unfold Py.slice. by rewrite drop_0.
  - by rewrite Hl.
Qed.

Lemma first_action_none (lines : list str) (d : str) :
  (∀ l, l ∈ lines → is_action_line lower l = false) →
  first_action lower lines d = d.
Proof.
  induction lines as [|l lines IH]; intros Hnone; simpl; [done|].
  rewrite Hnone by left. apply IH. intros l' Hl'. apply Hnone. by right.
Qed.

End NextAction.

(** C2 as the code has it. The next action of [ajouter_projet] is found by
    scanning the lines of the research agent's text for one that contains
    [action] in any case and is longer than 10 characters: the first such
    line, stripped of the white space around it and cut at 100 characters,
    is the next action; when no line is such, it is [Analyser les besoins]. *)
Theorem prochaine_action_first_line (lower : str → str) (project_analysis : str) :
  lower_by_line lower →
  (∀ before line after,
     Py.split 10%N project_analysis = before ++ line :: after →
     is_action_line lower line = true →
     Forall (fun l => is_action_line lower l = false) before →
     prochaine_action lower project_analysis = take 100 (Py.strip line)) ∧
  ((∀ line, line ∈ Py.split 10%N project_analysis → is_action_line lower line = false) →
   prochaine_action lower project_analysis = Analyser_les_besoins).
Proof.
  intros Hlower. unfold prochaine_action. split.
  - intros before line after Hsplit Hline Hbefore.
    rewrite (Hlower project_analysis line).
    + rewrite Hsplit. by apply first_action_found.
    + rewrite Hsplit. apply elem_of_app. right. left.
    + unfold is_action_line in Hline. by apply andb_true_iff in Hline as [? _].
  - intros Hnone. destruct (Py.contains _ _); [|done].
    by apply first_action_none.
Qed.

Lemma prochaine_action_first_line_witness :
  prochaine_action Py.ascii_lower
    (text "Analyse" ++ [10%N] ++ text "  Action : appeler le client  " ++ [10%N] ++ text "Fin")
  = text "Action : appeler le client".
Proof.
  apply (proj1 (prochaine_action_first_line Py.ascii_lower _ ascii_lower_by_line)
           [text "Analyse"] (text "  Action : appeler le client  ") [text "Fin"]).
  - reflexivity.
  - reflexivity.
  - repeat constructor.
Defined.

(** C2 as worded fails: a line of ten characters that contains [action] is
    passed over, so the text [Action: go] gives the default where the
    wording gives the line. *)
Lemma prochaine_action_short_line :
  prochaine_action Py.ascii_lower (text "Action: go") = Analyser_les_besoins ∧
  spec_prochaine_action Py.ascii_lower (text "Action: go") = text "Action: go" ∧
  prochaine_action Py.ascii_lower (text "Action: go")
  ≠ spec_prochaine_action Py.ascii_lower (text "Action: go").
Proof.
  repeat split. discriminate.
Qed.

(** ** The periodic sweep *)

Lemma alert_text_contains (nom : cell) (jours : Z) :
  Py.contains (cell_text nom) (alert_text nom jours) = true ∧
  Py.contains (Py.str_of_int jours) (alert_text nom jours) = true.
Proof.
  unfold alert_text. split.
  - rewrite (app_assoc [_] (text " ")). apply contains_app.
    destruct (cell_text nom); simpl; [done|].
    rewrite N.eqb_refl. simpl.
    apply orb_true_iff. left. clear. induction l as [|c l IH]; simpl; [done|].
    by rewrite N.eqb_refl.
  - rewrite (app_assoc [_]), (app_assoc _ (cell_text nom)), (app_assoc _ (text " : ")).
    apply contains_app.
    destruct (Py.str_of_int jours); simpl; [done|].
    rewrite N.eqb_refl. simpl.
    apply orb_true_iff. left. clear. induction l as [|c l IH]; simpl; [done|].
    by rewrite N.eqb_refl.
Qed.

(** What one alert says of the project it is about. *)
Lemma scan_projects_alerts (projects : list (dict cell)) (alerts : list str) (self : agent) :
  (∀ project, project ∈ projects → is_Some (project !! Nom_Projet)) →
  ∃ lines,
    scan_projects projects alerts self = (Return (alerts ++ lines), self) ∧
    Forall2 (fun project line => ∃ nom jours,
               project !! Nom_Projet = Some nom ∧
               project !! Jours_Stagnation = Some (CInt jours) ∧
               line = alert_text nom jours)
            (List.filter stagnant projects) lines.
Proof.
  revert alerts. induction projects as [|project projects IH]; intros alerts Hnames; simpl.
  - exists []. by rewrite app_nil_r.
  - assert (∀ p, p ∈ projects → is_Some (p !! Nom_Projet)) as Hrest.
    { intros p Hp. apply Hnames. by right. }
    destruct (Hnames project) as [nom Hnom]; [left|].
    unfold stagnant.
    destruct (not_terminal project); simpl; [|by apply IH].
    destruct (project !! Jours_Stagnation) as [[jours|s]|] eqn:Hjours; simpl;
      [|by apply IH..].
    destruct (7 <? jours)%Z; [|by apply IH].
    unfold bind, alert_line. rewrite Hnom. simpl.
    destruct (IH (alerts ++ [alert_text nom jours]) Hrest) as (lines & Hscan & Hlines).
    exists (alert_text nom jours :: lines). split.
    + rewrite Hscan. by rewrite <- app_assoc.
    + constructor; [|done]. by exists nom, jours.
Qed.

Lemma elem_of_trim (x : str) (values : list str) : x ∈ trim values → x ∈ values.
Proof.
  induction values as [|v values IH]; simpl; [done|].
  destruct (trim values) as [|v' r'] eqn:Htrim.
  - case_decide; [by intros ?%elem_of_nil|].
    intros ->%list_elem_of_singleton. left.
  - intros [->|Hin]%elem_of_cons; [left|]. right. by apply IH.
Qed.

Lemma foldl_insert_is_Some {V} (pairs : list (str * V)) (d : dict V) (key : str) :
  is_Some (d !! key) ∨ key ∈ pairs.*1 →
  is_Some (foldl (fun d kv => <[kv.1 := kv.2]> d) d pairs !! key).
Proof.
  revert d. induction pairs as [|[k v] pairs IH]; intros d; simpl.
  - intros [H|H]; [done | by apply elem_of_nil in H].
  - intros H. apply IH.
    destruct (decide (k = key)) as [->|Hne].
    + left. rewrite lookup_insert_eq. by eexists.
    + destruct H as [H|[H|H]%elem_of_cons]; [|done|by right].
      left. by rewrite lookup_insert_ne.
Qed.

(** Under the canonical header row every record has a name. *)
Lemma records_have_name (s : worksheet) :
  row_values 1 s = headers →
  ∀ project, project ∈ get_all_records s → is_Some (project !! Nom_Projet).
Proof.
  intros Hrow project. destruct s as [|head rows]; simpl; [by intros ?%elem_of_nil|].
  intros (row & -> & _)%list_elem_of_fmap.
  apply foldl_insert_is_Some. right.
  rewrite fst_zip by (unfold pad; rewrite length_app, length_replicate, length_map; lia).
  apply elem_of_trim. simpl in Hrow. rewrite Hrow. left.
Qed.

(** C1 as the code has it. On a sheet whose records have a name, a sweep
    makes one alert for each record whose status is neither [Terminé] nor
    [Annulé] and whose day count is above 7, in the order of the sheet, and
    none for the other records; the alert contains the name and the day
    count of its record. A record with status [Terminé] or [Annulé] is never
    reported, whatever its day count. When there is an alert, the sweep logs
    one warning that holds all of them, one per line; otherwise it logs
    nothing. The threshold is the constant 7: the configuration is not
    read. *)
Theorem monitor_projects_alerts (self : agent) :
  (∀ project, project ∈ get_all_records (sheet self) → is_Some (project !! Nom_Projet)) →
  ∃ alerts,
    monitor_projects self
    = (Return (match alerts with
               | [] => []
               | _ :: _ => [LogWarning (Alertes_detectees ++ Py.join [10%N] alerts)]
               end), self) ∧
    Forall2 (fun project line => ∃ nom jours,
               project !! Nom_Projet = Some nom ∧
               project !! Jours_Stagnation = Some (CInt jours) ∧
               line = alert_text nom jours ∧
               Py.contains (cell_text nom) line = true ∧
               Py.contains (Py.str_of_int jours) line = true)
            (List.filter stagnant (get_all_records (sheet self))) alerts ∧
    (∀ project : dict cell,
       project !! Statut = Some (CStr Termine) ∨ project !! Statut = Some (CStr Annule) →
       stagnant project = false) ∧
    (∀ (project : dict cell) jours,
       project !! Statut ≠ Some (CStr Termine) → project !! Statut ≠ Some (CStr Annule) →
       project !! Jours_Stagnation = Some (CInt jours) →
       stagnant project = bool_decide (7 < jours)%Z).
Proof.
  intros Hnames.
  destruct (scan_projects_alerts (get_all_records (sheet self)) [] self Hnames)
    as (alerts & Hscan & Halerts).
  exists alerts. split; [|split; [|split]].
  - unfold monitor_projects, try_except, bind, get_all_projects.
    rewrite Hscan. simpl. by destruct alerts.
  - eapply Forall2_impl; [exact Halerts|].
    intros project line (nom & jours & Hnom & Hjours & ->).
    exists nom, jours. repeat split; try done; apply alert_text_contains.
  - intros project Hstatut. unfold stagnant, not_terminal.
    rewrite bool_decide_eq_true_2; [done|].
    destruct Hstatut as [-> | ->]; set_solver.
  - intros project jours HT HA Hjours. unfold stagnant, not_terminal.
    rewrite Hjours, bool_decide_eq_false_2.
    + simpl. destruct (Z.ltb_spec 7 jours).
      * by rewrite bool_decide_eq_true_2.
      * rewrite bool_decide_eq_false_2; [done | lia].
    + intros [H|[H|H]%elem_of_cons]%elem_of_cons; [done | done |].
      by apply elem_of_nil in H.
Qed.

Lemma monitor_projects_alerts_witness :
  monitor_projects (Sample.agent_of Sample.sheet2)
  = (Return [LogWarning (Alertes_detectees ++ alert_text (CStr (text "Site web")) 10)],
     Sample.agent_of Sample.sheet2).
Proof.
  destruct (monitor_projects_alerts (Sample.agent_of Sample.sheet2)
              (records_have_name Sample.sheet2 eq_refl))
    as (alerts & Hsweep & Halerts & _).
  assert (List.filter stagnant (get_all_records Sample.sheet2)
          = [dict_zip headers (Sample.project_row (text "Site web") Sample.En_cours 10)])
    as Hstagnant by reflexivity.
  cbn [sheet Sample.agent_of] in Halerts. rewrite Hstagnant in Halerts.
  apply Forall2_cons_inv_l in Halerts
    as (line & rest & (nom & jours & Hnom & Hjours & -> & _) & ->%Forall2_nil_inv_l & ->).
  assert (nom = CStr (text "Site web")) as ->
    by (vm_compute in Hnom; injection Hnom as <-; reflexivity).
  assert (jours = 10%Z) as ->
    by (vm_compute in Hjours; injection Hjours as <-; reflexivity).
  exact Hsweep.
Defined.

(** C1 as worded fails: with a configured threshold of 3 days, a project in
    progress that has not moved for 5 days exceeds the configured threshold,
    and the sweep logs nothing. *)
Lemma monitor_projects_ignores_configuration :
  configured_stagnation_threshold (config Sample.alert_after_3) = Some 3%Z ∧
  get_all_records (sheet Sample.alert_after_3)
  = [dict_zip headers (Sample.project_row (text "Site web") Sample.En_cours 5)] ∧
  not_terminal (dict_zip headers (Sample.project_row (text "Site web") Sample.En_cours 5)) = true ∧
  dict_zip headers (Sample.project_row (text "Site web") Sample.En_cours 5) !! Jours_Stagnation
  = Some (CInt 5) ∧
  (3 < 5)%Z ∧
  monitor_projects Sample.alert_after_3 = (Return [], Sample.alert_after_3).
Proof.
  repeat split.
Qed.

Lemma setup_sheet_headers_enforces_witness :
  row_values 1 Sample.swapped ≠ headers ∧
  sheet (setup_sheet_headers (Sample.agent_of Sample.swapped)).2 = [map CStr headers] ∧
  setup_sheet_headers (Sample.agent_of Sample.sheet2) = (Return tt, Sample.agent_of Sample.sheet2).
Proof.
  assert (row_values 1 Sample.swapped ≠ headers) as Hswapped by discriminate.
  split; [exact Hswapped|]. split.
  - destruct (proj1 (setup_sheet_headers_enforces (Sample.agent_of Sample.swapped)) Hswapped)
      as (Hsetup & _).
    rewrite Hsetup. reflexivity.
  - apply (proj2 (setup_sheet_headers_enforces (Sample.agent_of Sample.sheet2))).
    reflexivity.
Defined.

Lemma mettre_a_jour_projet_not_found_witness :
  mettre_a_jour_projet Py.ascii_lower (Some (text "ok")) (text "2025-02-02") (text "Inconnu")
    [(text "statut", CStr Termine)] (Sample.agent_of Sample.sheet2)
  = (Return (Error (Message Projet_non_trouve)), Sample.agent_of Sample.sheet2).
Proof.
  apply mettre_a_jour_projet_not_found.
  intros project Hin.
  repeat (apply elem_of_cons in Hin as [->|Hin]; [vm_compute; discriminate|]).
  by apply elem_of_nil in Hin.
Defined.

(** ** Complements *)

(** The merge of the configuration is shallow: a file that sets one key of
    [monitoring] replaces the whole of [monitoring], and the other keys of
    the built-in [monitoring] are gone from the record loaded. *)
Lemma _load_config_shallow (sys : system) (config_path : str) (threshold : Z) :
  disk sys !! config_path
  = Some (JsonObject {[ text "monitoring" := JObj {[ text "stagnation_alert_days" := JNum threshold ]} ]}) →
  ∃ loaded, (_load_config sys config_path).1 = Return loaded ∧
    loaded !! text "monitoring" = Some (JObj {[ text "stagnation_alert_days" := JNum threshold ]}) ∧
    configured_stagnation_threshold loaded = Some threshold.
Proof.
  intros Hfile. unfold _load_config. rewrite Hfile. eexists. split; [done|].
  assert (∀ d : dict json,
            update d {[ text "monitoring" := JObj {[ text "stagnation_alert_days" := JNum threshold ]} ]}
            !! text "monitoring"
            = Some (JObj {[ text "stagnation_alert_days" := JNum threshold ]})) as Hmerge.
  { intros d. unfold update. apply lookup_union_Some_l. apply lookup_singleton_eq. }
  split; [apply Hmerge|].
  unfold configured_stagnation_threshold. rewrite Hmerge.
  by rewrite lookup_singleton_eq.
Qed.

(** Under the canonical header row, the row that [ajouter_projet] appends is
    read back by [get_all_records] as the last record, with the header texts
    as keys. *)
Lemma ajouter_projet_record (lower : str → str)
    (project_analysis planning_advice project_summary current_date : str)
    (nom_projet description : str) (priorite : Z) (deadline notes : str) (self : agent)
    (rows : list (list cell)) :
  sheet self = map CStr headers :: rows →
  last (get_all_records
          (sheet (ajouter_projet lower (Some project_analysis) (Some planning_advice)
                    (Some project_summary) current_date nom_projet description priorite
                    deadline notes self).2))
  = Some (dict_zip headers (row_data lower nom_projet description priorite deadline notes
                              project_analysis project_summary current_date)).
Proof.
  intros Hsheet. simpl. unfold append_row. rewrite Hsheet. simpl.
  rewrite map_app. simpl. by rewrite last_snoc.
Qed.

(** * Further properties *)

(** ** The relay: how many messages *)

Lemma length_range_from (limit fuel i stop : nat) :
  0 < limit → stop ≤ fuel + i →
  length (Py.range_from fuel i stop limit) = (stop - i + limit - 1) / limit.
Proof.
  intros Hlimit. revert i. induction fuel as [|fuel IH]; intros i Hfuel; simpl.
  - symmetry. apply Nat.div_small. lia.
  - destruct (Nat.ltb_spec i stop) as [Hlt|Hge]; simpl.
    + rewrite IH by lia.
      replace (stop - i + limit - 1) with (1 * limit + (stop - i - 1)) by lia.
      rewrite Nat.div_add_l by lia.
      destruct (decide (i + limit ≤ stop)) as [Hle|Hgt].
      * replace (stop - (i + limit) + limit - 1) with (stop - i - 1) by lia. lia.
      * rewrite (Nat.div_small (stop - i - 1)) by lia.
        rewrite Nat.div_small by lia. lia.
    + symmetry. apply Nat.div_small. lia.
Qed.

Lemma send_chunks_length (limit : nat) (contenu : str) :
  0 < limit → length (Go.send_chunks limit contenu) = (length contenu + limit - 1) / limit.
Proof.
  intros Hlimit. unfold Go.send_chunks, Py.range. rewrite length_map.
  rewrite length_range_from by lia. f_equal. lia.
Qed.

(** X1. The number of messages of a reply is its length divided by 4000, rounded
    up; an empty reply is answered by no message at all. *)
Theorem handle_message_count (contenu : str) :
  length (Go.handle_message (Some contenu)) = (length contenu + 3999) / 4000 ∧
  (Go.handle_message (Some contenu) = [] ↔ contenu = []).
Proof.
  assert (length (Go.handle_message (Some contenu)) = (length contenu + 3999) / 4000) as Hlen.
  { unfold Go.handle_message. rewrite send_chunks_length by lia.
    f_equal. lia. }
  split; [exact Hlen|]. split.
  - intros Hnil. rewrite Hnil in Hlen.
    destruct contenu as [|c contenu]; [done|]. exfalso.
    assert (1 ≤ (length (c :: contenu) + 3999) / 4000) as Hone.
    { apply Nat.div_le_lower_bound; [lia|]. cbn [length]. lia. }
    cbn [length] in Hlen, Hone. lia.
  - intros ->. reflexivity.
Qed.

(** ** The header row: setting up twice *)

(** X2. A second header setup changes nothing: once a setup has run, the rows
    added since are safe from the next one. *)
Theorem setup_sheet_headers_idempotent (self : agent) :
  setup_sheet_headers (setup_sheet_headers self).2
  = (Return tt, (setup_sheet_headers self).2).
Proof.
  pose proof (setup_sheet_headers_post self) as Hpost.
  unfold setup_sheet_headers at 1. by rewrite Hpost.
Qed.

(** ** The next action: its length *)

(** X3. Whatever the research agent answers, the next action written in the
    sheet has at most 100 characters. *)
Theorem prochaine_action_length (lower : str → str) (project_analysis : str) :
  length (prochaine_action lower project_analysis) ≤ 100.
Proof.
  assert (length Analyser_les_besoins ≤ 100) as Hdefault by (vm_compute; lia).
  unfold prochaine_action. destruct (Py.contains _ _); [|done].
  induction (Py.split 10%N project_analysis) as [|line lines IH]; simpl; [done|].
  destruct (is_action_line lower line); [|done].
  unfold Py.slice. rewrite length_take. lia.
Qed.

(** ** The configuration: loading again *)

Lemma default_config_keys (sys sys' : system) (key : str) :
  default_config sys !! key = None → default_config sys' !! key = None.
Proof.
  unfold default_config. rewrite !lookup_insert.
  repeat (case_decide; [done|]). done.
Qed.

(** X4. Once the configuration file has been created, it decides: a later load
    returns the record written at the first run, whatever the environment
    variables have become. *)
Theorem _load_config_frozen (sys : system) (config_path : str) (environ' : dict str) :
  disk sys !! config_path = None →
  _load_config {| environ := environ'; disk := disk (_load_config sys config_path).2 |}
    config_path
  = (Return (default_config sys),
     {| environ := environ'; disk := disk (_load_config sys config_path).2 |}).
Proof.
  intros Hnone.
  set (later := {| environ := environ'; disk := disk (_load_config sys config_path).2 |}).
  assert (∀ sys' : system, update (default_config sys') (default_config sys) = default_config sys)
    as Hmerge.
  { intros sys'. unfold update. apply map_eq. intros key.
    destruct (default_config sys !! key) as [v|] eqn:Hkey.
    - by apply lookup_union_Some_l.
    - rewrite lookup_union_r by done. by apply (default_config_keys sys). }
  assert (disk later !! config_path = Some (JsonObject (default_config sys))) as Hfile.
  { subst later. unfold _load_config. rewrite Hnone. apply lookup_insert_eq. }
  unfold _load_config at 1. rewrite Hfile. by rewrite Hmerge.
Qed.

Lemma _load_config_frozen_witness :
  (_load_config {| environ := ∅;
                   disk := disk (_load_config Fixtures.first_run (text "config.json")).2 |}
     (text "config.json")).1
  = Return (default_config Fixtures.first_run) ∧
  default_config Fixtures.first_run !! text "sheet_name" = Some (JStr (text "Suivi")).
Proof.
  split; [|reflexivity].
  rewrite (_load_config_frozen Fixtures.first_run (text "config.json") ∅ eq_refl).
  reflexivity.
Defined.

(** ** Updating a project: what may change *)

(** Closes a goal that computation decides. *)
Ltac by_decide := apply (bool_decide_unpack _); vm_compute; exact I.

Lemma columns_range (key : str) (c : nat) :
  columns !! key = Some c → c ∈ [2; 3; 4; 5; 6; 12].
Proof.
  unfold columns.
  repeat (rewrite lookup_insert; case_decide; [intros [= <-]; by_decide|]).
  intros Hc. by apply lookup_empty_Some in Hc.
Qed.

Section UpdateLoop.

Variable lower : str → str.

(** The loop over the keywords writes in the row of the project only, and
    there only in the columns of [columns]. *)
Lemma for_each_kwargs (i : nat) (kwargs : list (str * cell)) (self : agent) :
  ∃ s, for_each kwargs (fun kv => match columns !! lower kv.1 with
                                  | Some c => update_cell (S i) c kv.2
                                  | None => ret tt
                                  end) self = (Return tt, set_sheet s self) ∧
    ∀ r c, r ≠ S i ∨ c ∉ [2; 3; 4; 5; 6; 12] → cell_value s r c = cell_value (sheet self) r c.
Proof.
  revert self. induction kwargs as [|[field value] kwargs IH]; intros self.
  - exists (sheet self). by destruct self.
  - simpl. unfold bind.
    destruct (columns !! lower field) as [c|] eqn:Hc; simpl.
    + pose proof (columns_range _ _ Hc) as Hrange.
      destruct c as [|j].
      { repeat (apply elem_of_cons in Hrange as [Heq|Hrange]; [discriminate Heq|]).
        by apply elem_of_nil in Hrange. }
      simpl.
      destruct (IH (set_sheet (write i j value (sheet self)) self)) as (s & -> & Hframe).
      exists s. split; [done|]. intros r c Hrc.
      rewrite Hframe by done. cbn [sheet set_sheet].
      apply cell_value_write_ne. intros [= -> ->]. destruct Hrc; done.
    + destruct (IH self) as (s & -> & Hframe). by exists s.
Qed.

(** When no keyword names a column, the loop writes nothing. *)
Lemma for_each_kwargs_unknown (i : nat) (kwargs : list (str * cell)) (self : agent) :
  Forall (fun kv => columns !! lower kv.1 = None) kwargs →
  for_each kwargs (fun kv => match columns !! lower kv.1 with
                             | Some c => update_cell (S i) c kv.2
                             | None => ret tt
                             end) self = (Return tt, self).
Proof.
  induction 1 as [|[field value] kwargs Hkv _ IH]; simpl; [done|].
  unfold bind. simpl in Hkv. by rewrite Hkv.
Qed.

(** The update of a project that is in the sheet. *)
Lemma mettre_a_jour_projet_found (redacteur : option str) (current_date nom_projet : str)
    (kwargs : list (str * cell)) (self : agent) (k : nat) (project : dict cell) :
  get_all_records (sheet self) !! k = Some project →
  project !! Nom_Projet = Some (CStr nom_projet) →
  (∀ k' p', k' < k → get_all_records (sheet self) !! k' = Some p' →
     p' !! Nom_Projet ≠ Some (CStr nom_projet)) →
  ∃ s,
    mettre_a_jour_projet lower redacteur current_date nom_projet kwargs self
    = (Return (match redacteur with
               | Some update_analysis => Success (kwargs, update_analysis)
               | None => Error (OfException ReplyError)
               end), set_sheet (write (S k) 7 (CStr current_date) s) self) ∧
    for_each kwargs (fun kv => match columns !! lower kv.1 with
                               | Some c => update_cell (S (S k)) c kv.2
                               | None => ret tt
                               end) self = (Return tt, set_sheet s self).
Proof.
  intros Hk Hname Hfirst.
  assert (find_project_row nom_projet (get_all_records (sheet self)) 2 = Some (S (S k)))
    as Hrow.
  { apply find_project_row_Some. exists k, project. by repeat split. }
  destruct (for_each_kwargs (S k) kwargs self) as (s & Hloop & _).
  exists s. split; [|done].
  unfold mettre_a_jour_projet, try_except, bind, get_all_projects.
  rewrite Hrow. simpl. rewrite Hloop. simpl. by destruct redacteur.
Qed.

End UpdateLoop.

(** X5. Whatever the keywords of an update, it writes only in the row of the
    project, and there only in the columns of the status, priority,
    description, next action, deadline, last-update date and notes: the
    name, the creation date, the day count, the alert and the progression of
    every project stay as they are, as do the configuration and the cache of
    the agent. The last-update date becomes the current date. *)
Theorem mettre_a_jour_projet_frame (lower : str → str) (redacteur : option str)
    (current_date nom_projet : str) (kwargs : list (str * cell)) (self : agent)
    (k : nat) (project : dict cell) :
  get_all_records (sheet self) !! k = Some project →
  project !! Nom_Projet = Some (CStr nom_projet) →
  (∀ k' p', k' < k → get_all_records (sheet self) !! k' = Some p' →
     p' !! Nom_Projet ≠ Some (CStr nom_projet)) →
  ∃ after,
    mettre_a_jour_projet lower redacteur current_date nom_projet kwargs self
    = (Return (match redacteur with
               | Some update_analysis => Success (kwargs, update_analysis)
               | None => Error (OfException ReplyError)
               end), after) ∧
    cell_value (sheet after) (k + 2) 8 = CStr current_date ∧
    (∀ r c, r ≠ k + 2 ∨ c ∉ [2; 3; 4; 5; 6; 8; 12] →
       cell_value (sheet after) r c = cell_value (sheet self) r c) ∧
    config after = config self ∧ projects_cache after = projects_cache self.
Proof.
  intros Hk Hname Hfirst.
  destruct (mettre_a_jour_projet_found lower redacteur current_date nom_projet kwargs
              self k project Hk Hname Hfirst) as (s & Hcall & Hloop).
  destruct (for_each_kwargs lower (S k) kwargs self) as (s' & Hloop' & Hframe).
  rewrite Hloop in Hloop'. injection Hloop' as <-.
  eexists. split; [exact Hcall|].
  replace (k + 2) with (S (S k)) by lia. cbn [sheet set_sheet config projects_cache].
  split; [apply cell_value_write_eq|]. split; [|done].
  intros r c Hrc. rewrite cell_value_write_ne.
  - apply Hframe. destruct Hrc as [Hr|Hc]; [by left|]. right.
    intros Hin. apply Hc.
    repeat (apply elem_of_cons in Hin as [->|Hin]; [by_decide|]).
    by apply elem_of_nil in Hin.
  - intros [= -> ->]. destruct Hrc as [Hr|Hc]; [done|]. apply Hc. by_decide.
Qed.

(** X6. Keywords that name no column are dropped without an error: the update
    succeeds and only stamps the last-update date. *)
Theorem mettre_a_jour_projet_unknown_fields (lower : str → str) (update_analysis : str)
    (current_date nom_projet : str) (kwargs : list (str * cell)) (self : agent)
    (k : nat) (project : dict cell) :
  Forall (fun kv => columns !! lower kv.1 = None) kwargs →
  get_all_records (sheet self) !! k = Some project →
  project !! Nom_Projet = Some (CStr nom_projet) →
  (∀ k' p', k' < k → get_all_records (sheet self) !! k' = Some p' →
     p' !! Nom_Projet ≠ Some (CStr nom_projet)) →
  ∃ after,
    mettre_a_jour_projet lower (Some update_analysis) current_date nom_projet kwargs self
    = (Return (Success (kwargs, update_analysis)), after) ∧
    cell_value (sheet after) (k + 2) 8 = CStr current_date ∧
    ∀ r c, (r, c) ≠ (k + 2, 8) → cell_value (sheet after) r c = cell_value (sheet self) r c.
Proof.
  intros Hunknown Hk Hname Hfirst.
  destruct (mettre_a_jour_projet_found lower (Some update_analysis) current_date nom_projet
              kwargs self k project Hk Hname Hfirst) as (s & Hcall & Hloop).
  rewrite for_each_kwargs_unknown in Hloop by done.
  assert (s = sheet self) as -> by (destruct self; by injection Hloop).
  eexists. split; [exact Hcall|].
  replace (k + 2) with (S (S k)) by lia. cbn [sheet set_sheet].
  split; [apply cell_value_write_eq|].
  intros r c Hrc. by apply cell_value_write_ne.
Qed.

Lemma mettre_a_jour_projet_frame_witness :
  ∃ after,
    (mettre_a_jour_projet Py.ascii_lower (Some (text "ok")) (text "2025-02-02") (text "Site web")
       [(text "Statut", CStr Termine); (text "Nom_Projet", CStr (text "Autre"))]
       (Sample.agent_of Sample.sheet2)).2 = after ∧
    cell_value (sheet after) 2 1 = CStr (text "Site web") ∧
    cell_value (sheet after) 2 8 = CStr (text "2025-02-02").
Proof.
  destruct (mettre_a_jour_projet_frame Py.ascii_lower (Some (text "ok")) (text "2025-02-02")
              (text "Site web")
              [(text "Statut", CStr Termine); (text "Nom_Projet", CStr (text "Autre"))]
              (Sample.agent_of Sample.sheet2) 0
              (dict_zip headers (Sample.project_row (text "Site web") Sample.En_cours 10)))
    as (after & Hcall & Hdate & Hframe & _).
  - reflexivity.
  - vm_compute. reflexivity.
  - intros k' p' Hlt. lia.
  - exists after. split; [by rewrite Hcall|]. split; [|exact Hdate].
    rewrite Hframe; [reflexivity|]. right. intros Hin.
    repeat (apply elem_of_cons in Hin as [Heq|Hin]; [discriminate Heq|]).
    by apply elem_of_nil in Hin.
Defined.

Lemma mettre_a_jour_projet_unknown_fields_witness :
  ∃ after,
    mettre_a_jour_projet Py.ascii_lower (Some (text "ok")) (text "2025-02-02") (text "Site web")
      [(text "couleur", CStr (text "bleu"))] (Sample.agent_of Sample.sheet2)
    = (Return (Success ([(text "couleur", CStr (text "bleu"))], text "ok")), after) ∧
    cell_value (sheet after) 2 8 = CStr (text "2025-02-02") ∧
    cell_value (sheet after) 2 2 = CStr Sample.En_cours.
Proof.
  destruct (mettre_a_jour_projet_unknown_fields Py.ascii_lower (text "ok") (text "2025-02-02")
              (text "Site web") [(text "couleur", CStr (text "bleu"))]
              (Sample.agent_of Sample.sheet2) 0
              (dict_zip headers (Sample.project_row (text "Site web") Sample.En_cours 10)))
    as (after & Hcall & Hdate & Hframe).
  - constructor; [vm_compute; reflexivity | constructor].
  - reflexivity.
  - vm_compute. reflexivity.
  - intros k' p' Hlt. lia.
  - exists after. split; [exact Hcall|]. split; [exact Hdate|].
    rewrite Hframe by discriminate. reflexivity.
Defined.

(** ** Adding a project, then reading and updating it *)

Lemma get_all_records_snoc (head : list cell) (rows : list (list cell)) (row : list cell) :
  get_all_records ((head :: rows) ++ [row])
  = get_all_records (head :: rows)
    ++ [dict_zip (map cell_text head) (pad blank (length head) row)].
Proof.
  simpl. by rewrite map_app.
Qed.


Section AddThenUpdate.

Variable lower : str → str.

(** What a successful [ajouter_projet] leaves. *)
Lemma ajouter_projet_done
    (project_analysis planning_advice project_summary current_date : str)
    (nom_projet description : str) (priorite : Z) (deadline notes : str) (self : agent) :
  ajouter_projet lower (Some project_analysis) (Some planning_advice) (Some project_summary)
    current_date nom_projet description priorite deadline notes self
  = (Return (Success {| analysis := project_analysis; planning := planning_advice;
                        summary := project_summary |}),
     {| config := config self;
        sheet := sheet self ++ [row_data lower nom_projet description priorite deadline notes
                                  project_analysis project_summary current_date];
        projects_cache :=
          get_all_records
            (sheet self ++ [row_data lower nom_projet description priorite deadline notes
                              project_analysis project_summary current_date]) |}).
Proof. reflexivity. Qed.

(** An update whose only keyword is the status. *)
Lemma for_each_statut (i : nat) (field : str) (value : cell) (self : agent) :
  lower field = text "statut" →
  for_each [(field, value)] (fun kv => match columns !! lower kv.1 with
                                       | Some c => update_cell (S i) c kv.2
                                       | None => ret tt
                                       end) self
  = (Return tt, set_sheet (write i 1 value (sheet self)) self).
Proof.
  intros Hfield. simpl. unfold bind. simpl. rewrite Hfield, columns_statut. done.
Qed.

End AddThenUpdate.

(** X7. On a sheet that has a header row, a successful [ajouter_projet] adds
    exactly one record after the records that were there, which stay as they
    were, and the cache of the agent is the list of the records of the new
    sheet. On a sheet without any row, the row added is taken for the header
    row, and no project is listed. *)
Theorem ajouter_projet_records (lower : str → str)
    (project_analysis planning_advice project_summary current_date : str)
    (nom_projet description : str) (priorite : Z) (deadline notes : str) (self : agent) :
  ∃ after,
    ajouter_projet lower (Some project_analysis) (Some planning_advice) (Some project_summary)
      current_date nom_projet description priorite deadline notes self
    = (Return (Success {| analysis := project_analysis; planning := planning_advice;
                          summary := project_summary |}), after) ∧
    projects_cache after = get_all_records (sheet after) ∧
    config after = config self ∧
    (sheet self ≠ [] →
       ∃ record, get_all_records (sheet after) = get_all_records (sheet self) ++ [record]) ∧
    (sheet self = [] → get_all_records (sheet after) = []).
Proof.
  eexists. split; [apply ajouter_projet_done|]. cbn [projects_cache sheet config].
  split; [done|]. split; [done|]. split.
  - destruct (sheet self) as [|head rows]; [done|]. intros _.
    eexists. apply get_all_records_snoc.
  - by intros ->.
Qed.

(** X8. [ajouter_projet] does not look for the name in the sheet: a project
    whose name is already there is added all the same, and an update by that
    name afterwards writes in the row of the older project; the row just
    added keeps its name and its status [À faire]. *)
Theorem ajouter_projet_duplicate (lower : str → str) (redacteur : option str)
    (project_analysis planning_advice project_summary date1 date2 : str)
    (nom_projet description field : str) (priorite : Z) (deadline notes : str)
    (value : cell) (self : agent) (k : nat) (project : dict cell) :
  lower field = text "statut" →
  get_all_records (sheet self) !! k = Some project →
  project !! Nom_Projet = Some (CStr nom_projet) →
  (∀ k' p', k' < k → get_all_records (sheet self) !! k' = Some p' →
     p' !! Nom_Projet ≠ Some (CStr nom_projet)) →
  ∃ added after,
    ajouter_projet lower (Some project_analysis) (Some planning_advice) (Some project_summary)
      date1 nom_projet description priorite deadline notes self
    = (Return (Success {| analysis := project_analysis; planning := planning_advice;
                          summary := project_summary |}), added) ∧
    mettre_a_jour_projet lower redacteur date2 nom_projet [(field, value)] added
    = (Return (match redacteur with
               | Some update_analysis => Success ([(field, value)], update_analysis)
               | None => Error (OfException ReplyError)
               end), after) ∧
    k + 2 < length (sheet added) ∧
    cell_value (sheet after) (k + 2) 2 = value ∧
    cell_value (sheet after) (length (sheet added)) 1 = CStr nom_projet ∧
    cell_value (sheet after) (length (sheet added)) 2 = CStr A_faire.
Proof.
  intros Hfield Hk Hname Hfirst.
  destruct (sheet self) as [|head rows] eqn:Hsheet; [done|].
  assert (k < length rows) as Hlt.
  { apply lookup_lt_Some in Hk. simpl in Hk. by rewrite length_map in Hk. }
  set (rd := row_data lower nom_projet description priorite deadline notes
               project_analysis project_summary date1).
  set (added := {| config := config self; sheet := sheet self ++ [rd];
                   projects_cache := get_all_records (sheet self ++ [rd]) |}).
  assert (get_all_records (sheet added)
          = get_all_records (head :: rows)
            ++ [dict_zip (map cell_text head) (pad blank (length head) rd)]) as Hrecords.
  { cbn [sheet added]. rewrite Hsheet. apply get_all_records_snoc. }
  destruct (mettre_a_jour_projet_found lower redacteur date2 nom_projet [(field, value)]
              added k project) as (s & Hcall & Hloop).
  { rewrite Hrecords. by apply lookup_app_l_Some. }
  { done. }
  { intros k' p' Hk' Hp'. apply (Hfirst k' p' Hk').
    rewrite Hrecords in Hp'. rewrite lookup_app_l in Hp'; [done|].
    simpl. rewrite length_map. lia. }
  rewrite for_each_statut in Hloop by done.
  assert (s = write (S k) 1 value (sheet added)) as ->
    by (cbn [sheet set_sheet added] in *; by injection Hloop).
  exists added. eexists. split; [apply ajouter_projet_done|]. split; [exact Hcall|].
  assert (length (sheet added) = S (S (length rows))) as Hlen.
  { cbn [sheet added]. rewrite Hsheet, length_app. simpl. lia. }
  rewrite Hlen. replace (k + 2) with (S (S k)) by lia.
  cbn [sheet set_sheet].
  split; [lia|]. split.
  - rewrite cell_value_write_ne by congruence. apply cell_value_write_eq.
  - rewrite !cell_value_write_ne by (intros [= ?]; lia).
    cbn [sheet added]. rewrite Hsheet. unfold cell_value.
    replace (length rows) with (length rows + 0) by lia.
    rewrite !(lookup_app_r (head :: rows)) by (simpl; lia).
    replace (S (length rows + 0) - length (head :: rows)) with 0 by (simpl; lia).
    done.
Qed.


Lemma ajouter_projet_duplicate_witness :
  ∃ added after,
    (ajouter_projet Py.ascii_lower (Some (text "a")) (Some (text "p")) (Some (text "s"))
       (text "2025-02-01") (text "Site web") (text "Refonte") 1 [] []
       (Sample.agent_of Sample.sheet2)).2 = added ∧
    (mettre_a_jour_projet Py.ascii_lower (Some (text "ok")) (text "2025-02-02")
       (text "Site web") [(text "statut", CStr Termine)] added).2 = after ∧
    length (sheet added) = 4 ∧
    cell_value (sheet after) 2 2 = CStr Termine ∧
    cell_value (sheet after) 4 1 = CStr (text "Site web") ∧
    cell_value (sheet after) 4 2 = CStr A_faire.
Proof.
  destruct (ajouter_projet_duplicate Py.ascii_lower (Some (text "ok"))
              (text "a") (text "p") (text "s") (text "2025-02-01") (text "2025-02-02")
              (text "Site web") (text "Refonte") (text "statut") 1 [] [] (CStr Termine)
              (Sample.agent_of Sample.sheet2) 0
              (dict_zip headers (Sample.project_row (text "Site web") Sample.En_cours 10)))
    as (added & after & Hadd & Hupdate & _ & Hold & Hname & Hstatut).
  - reflexivity.
  - reflexivity.
  - vm_compute. reflexivity.
  - intros k' p' Hlt. lia.
  - exists added, after.
    assert (length (sheet added) = 4) as Hlen by (injection Hadd as <-; reflexivity).
    rewrite Hlen in Hname, Hstatut.
    split; [by rewrite Hadd|]. split; [by rewrite Hupdate|].
    split; [exact Hlen|]. split; [exact Hold|]. split; [exact Hname | exact Hstatut].
Defined.


Lemma ajouter_projet_records_witness :
  ∃ after record,
    (ajouter_projet Py.ascii_lower (Some (text "a")) (Some (text "p")) (Some (text "s"))
       (text "2025-02-01") (text "Intranet") (text "Portail") 2 [] []
       (Sample.agent_of Sample.sheet2)).2 = after ∧
    get_all_records (sheet after) = get_all_records Sample.sheet2 ++ [record] ∧
    projects_cache after = get_all_records (sheet after).
Proof.
  destruct (ajouter_projet_records Py.ascii_lower (text "a") (text "p") (text "s")
              (text "2025-02-01") (text "Intranet") (text "Portail") 2 [] []
              (Sample.agent_of Sample.sheet2))
    as (after & Hadd & Hcache & _ & Hrecords & _).
  destruct Hrecords as [record Hrecord]; [discriminate|].
  exists after, record. rewrite Hadd. repeat split; assumption.
Defined.

(** ** Searching: a number where a text is expected *)

Section SearchErrors.

Variable lower : str → str.

(** The test of one project returns, or raises [AttributeError]; it never
    touches the agent. *)
Lemma project_matches_outcome (query_lower : str) (project : dict cell) (self : agent) :
  (∃ b, project_matches lower query_lower project self = (Return b, self)) ∨
  project_matches lower query_lower project self = (Raise AttributeError, self).
Proof.
  unfold project_matches, bind, cell_lower.
  destruct (default _ (project !! Nom_Projet)) as [z|s]; simpl; [by right|].
  destruct (Py.contains _ _); simpl; [left; by eexists|].
  destruct (default _ (project !! Description)) as [z|s']; simpl; [by right|].
  destruct (Py.contains _ _); simpl; [left; by eexists|].
  destruct (default _ (project !! Notes)) as [z|s'']; simpl; [by right|].
  left. by eexists.
Qed.

Lemma project_matches_numeric_name (query_lower : str) (project : dict cell) (z : Z)
    (self : agent) :
  project !! Nom_Projet = Some (CInt z) →
  project_matches lower query_lower project self = (Raise AttributeError, self).
Proof.
  intros Hname. unfold project_matches, bind. by rewrite Hname.
Qed.

Lemma search_projects_numeric_name (query_lower : str) (projects results : list (dict cell))
    (self : agent) :
  (∃ project z, project ∈ projects ∧ project !! Nom_Projet = Some (CInt z)) →
  search_projects lower query_lower projects results self = (Raise AttributeError, self).
Proof.
  revert results. induction projects as [|p projects IH]; intros results (project & z & Hin & Hname).
  - by apply elem_of_nil in Hin.
  - simpl. unfold bind.
    apply elem_of_cons in Hin as [->|Hin].
    + by rewrite (project_matches_numeric_name _ _ z).
    + destruct (project_matches_outcome query_lower p self) as [[b ->]| ->]; [|done].
      apply IH. by exists project, z.
Qed.

End SearchErrors.

(** X10. A single project whose name reads as a number (a name made of digits)
    breaks every search, whatever the query: [rechercher_projet] raises
    [AttributeError], which it does not handle, and so does the analysis of
    the health of any project. The sheet is not modified. *)
Theorem rechercher_projet_numeric_name (lower : str → str) (strptime : str → option Z)
    (today : Z) (query : str) (self : agent) :
  (∃ project z, project ∈ get_all_records (sheet self) ∧
     project !! Nom_Projet = Some (CInt z)) →
  rechercher_projet lower query self = (Raise AttributeError, self) ∧
  analyze_project_health lower strptime today query self = Throw (Exn AttributeError).
Proof.
  intros Hnumeric.
  assert (rechercher_projet lower query self = (Raise AttributeError, self)) as Hsearch.
  { unfold rechercher_projet, bind, get_all_projects.
    by apply search_projects_numeric_name. }
  split; [exact Hsearch|].
  unfold analyze_project_health. by rewrite Hsearch.
Qed.

(** ** The periodic sweep: what can go wrong *)

(** The loop of the sweep returns, or raises the [KeyError] of the name; it
    never touches the agent. *)
Lemma scan_projects_outcome (projects : list (dict cell)) (alerts : list str) (self : agent) :
  (∃ lines, scan_projects projects alerts self = (Return lines, self)) ∨
  scan_projects projects alerts self = (Raise (KeyError Nom_Projet), self).
Proof.
  revert alerts. induction projects as [|p projects IH]; intros alerts; simpl.
  - left. by eexists.
  - destruct (not_terminal p); [|apply IH].
    destruct (default _ (p !! Jours_Stagnation)) as [jours|s]; [|apply IH].
    destruct (7 <? jours)%Z; [|apply IH].
    unfold bind, alert_line.
    destruct (p !! Nom_Projet) as [nom|]; simpl; [apply IH | by right].
Qed.

Lemma scan_projects_nameless (projects : list (dict cell)) (alerts : list str) (self : agent) :
  (∃ project, project ∈ projects ∧ stagnant project = true ∧ project !! Nom_Projet = None) →
  scan_projects projects alerts self = (Raise (KeyError Nom_Projet), self).
Proof.
  revert alerts. induction projects as [|p projects IH];
    intros alerts (project & Hin & Hstagnant & Hname).
  - by apply elem_of_nil in Hin.
  - simpl. apply elem_of_cons in Hin as [->|Hin].
    + unfold stagnant in Hstagnant.
      apply andb_true_iff in Hstagnant as [-> Hjours].
      destruct (p !! Jours_Stagnation) as [[jours|s]|]; simpl in *; try done.
      rewrite Hjours. unfold bind, alert_line. by rewrite Hname.
    + assert (∀ alerts', scan_projects projects alerts' self
                         = (Raise (KeyError Nom_Projet), self)) as Hrest.
      { intros alerts'. apply IH. by exists project. }
      destruct (not_terminal p); [|apply Hrest].
      destruct (default _ (p !! Jours_Stagnation)) as [jours|s]; [|apply Hrest].
      destruct (7 <? jours)%Z; [|apply Hrest].
      unfold bind, alert_line.
      destruct (p !! Nom_Projet) as [nom|]; simpl; [apply Hrest | done].
Qed.

(** X11. When the header row does not name the column [Nom_Projet], one stagnant
    project is enough for the sweep to lose every alert: it logs the
    [KeyError] as an error and no warning, also for the other stagnant
    projects. *)
Theorem monitor_projects_nameless (self : agent) :
  (∃ project, project ∈ get_all_records (sheet self) ∧
     stagnant project = true ∧ project !! Nom_Projet = None) →
  monitor_projects self = (Return [LogError (KeyError Nom_Projet)], self).
Proof.
  intros Hnameless.
  unfold monitor_projects, try_except, bind, get_all_projects.
  by rewrite scan_projects_nameless.
Qed.

(** X12. A sweep never raises and never modifies the agent; it sends at most one
    record to the logger. *)
Theorem monitor_projects_safe (self : agent) :
  ∃ records, monitor_projects self = (Return records, self) ∧ length records ≤ 1.
Proof.
  unfold monitor_projects, try_except, bind, get_all_projects.
  destruct (scan_projects_outcome (get_all_records (sheet self)) [] self)
    as [[lines ->]| ->]; simpl.
  - destruct lines; eexists; (split; [done|]); simpl; lia.
  - eexists. split; [done|]. simpl. lia.
Qed.

Lemma rechercher_projet_numeric_name_witness :
  rechercher_projet Py.ascii_lower (text "intranet") (Fixtures.agent_of Fixtures.numbered)
  = (Raise AttributeError, Fixtures.agent_of Fixtures.numbered).
Proof.
  apply (rechercher_projet_numeric_name Py.ascii_lower Fixtures.strptime 10
           (text "intranet") (Fixtures.agent_of Fixtures.numbered)).
  eexists. exists 2024%Z. split; [left|]. vm_compute. reflexivity.
Defined.

Lemma monitor_projects_nameless_witness :
  monitor_projects (Fixtures.agent_of Fixtures.nameless)
  = (Return [LogError (KeyError Nom_Projet)], Fixtures.agent_of Fixtures.nameless).
Proof.
  apply monitor_projects_nameless.
  eexists. split; [left|]. split; vm_compute; reflexivity.
Defined.

(** ** The research log *)

Lemma save_research_log_usable (timestamp query result context : str)
    (file : option log_file) (old : list json) :
  file = None ∧ old = [] ∨ file = Some (LogList old) →
  save_research_log timestamp query result context file
  = Some (LogList (drop (S (length old) - 100)
                        (old ++ [log_entry timestamp query context result]))).
Proof.
  intros [[-> ->]| ->]; [reflexivity|].
  unfold save_research_log. cbv zeta. rewrite length_app. cbn [length].
  replace (length old + 1) with (S (length old)) by lia.
  destruct (Nat.ltb_spec 100 (S (length old))) as [Hlong|Hshort]; [done|].
  replace (S (length old) - 100) with 0 by lia. reflexivity.
Qed.

(** X13. After a search is saved in a log that is absent or holds a JSON array,
    the log holds at most 100 entries; its last entry is that of the search,
    and before it come the most recent of the earlier entries, in their
    order: the oldest are dropped when there would be more than 100. *)
Theorem save_research_log_bounded (timestamp query result context : str)
    (file : option log_file) (old : list json) :
  file = None ∧ old = [] ∨ file = Some (LogList old) →
  ∃ logs kept,
    save_research_log timestamp query result context file = Some (LogList logs) ∧
    logs = kept ++ [log_entry timestamp query context result] ∧
    kept = drop (S (length old) - 100) old ∧
    length logs = min 100 (S (length old)).
Proof.
  intros Hfile.
  exists (drop (S (length old) - 100) (old ++ [log_entry timestamp query context result])),
         (drop (S (length old) - 100) old).
  split; [by apply save_research_log_usable|].
  split; [|split; [done|]].
  - rewrite drop_app_le by lia. done.
  - rewrite length_drop, length_app. cbn [length]. lia.
Qed.

(** X14. The result text kept in a log entry has at most 503 characters and
    starts as the result does; a result of at most 500 characters is kept as
    it is. *)
Theorem log_entry_result (timestamp query context result : str) :
  ∃ m stored,
    log_entry timestamp query context result = JObj m ∧
    m !! text "query" = Some (JStr query) ∧
    m !! text "result" = Some (JStr stored) ∧
    length stored ≤ 503 ∧
    take 500 stored = take 500 result ∧
    (length result ≤ 500 → stored = result).
Proof.
  eexists. exists (if 500 <? length result then Py.slice result 0 500 ++ text "..." else result).
  split; [reflexivity|].
  split; [vm_compute; reflexivity|].
  split; [generalize (if 500 <? length result then Py.slice result 0 500 ++ text "..." else result);
          intros stored; vm_compute; reflexivity|].
  unfold Py.slice. rewrite Nat.sub_0_r, drop_0.
  destruct (Nat.ltb_spec 500 (length result)) as [Hlong|Hshort].
  - split; [|split; [|lia]].
    + rewrite length_app, length_take. cbn [length text]. lia.
    + rewrite take_app_le by (rewrite length_take; lia).
      rewrite take_take. by rewrite Nat.min_id.
  - split; [lia | done].
Qed.

(** ** Searching for information *)

(** X15. A search either fails, and then the log is as it was, or succeeds. In
    that case a log that cannot be used is left as it is and does not fail
    the search, and a usable log ends with the entry of this search (its
    query, its context and its final synthesis) and holds at most 100
    entries. *)
Theorem rechercher_information_log (lower : str → str)
    (recherche planificateur redacteur : option str) (timestamp query project_context : str)
    (file : option log_file) :
  (∃ e, rechercher_information lower recherche planificateur redacteur timestamp query
          project_context file = (Error e, file)) ∨
  (∃ report file',
     rechercher_information lower recherche planificateur redacteur timestamp query
       project_context file = (Success report, file') ∧
     recherche = Some (raw_analysis report) ∧
     redacteur = Some (final_synthesis report) ∧
     (file = Some NotAList ∧ file' = file ∨
      ∃ logs, file ≠ Some NotAList ∧ file' = Some (LogList logs) ∧
        last logs = Some (log_entry timestamp query project_context (final_synthesis report)) ∧
        length logs ≤ 100)).
Proof.
  unfold rechercher_information.
  destruct recherche as [recherche_result|]; [|left; by eexists].
  destruct (if needs_planning lower query then planificateur else Some [])
    as [planning_result|]; [|left; by eexists].
  destruct redacteur as [final_result|]; [|left; by eexists].
  right. eexists. eexists. split; [reflexivity|]. cbn [final_synthesis raw_analysis].
  split; [done|]. split; [done|].
  destruct file as [[old|]|].
  - right. rewrite (save_research_log_usable _ _ _ _ _ old) by (by right).
    eexists. split; [done|]. split; [reflexivity|]. split.
    + rewrite drop_app_le by lia. apply last_snoc.
    + rewrite length_drop, length_app. cbn [length]. lia.
  - by left.
  - right. eexists. split; [done|]. split; [reflexivity|]. split; [done|].
    simpl. lia.
Qed.

Lemma save_research_log_bounded_witness :
  ∃ logs kept,
    save_research_log (text "2025-01-10T09:00:00") (text "budget") (text "ok") []
      (Some (LogList Fixtures.full_log)) = Some (LogList logs) ∧
    logs = kept ++ [log_entry (text "2025-01-10T09:00:00") (text "budget") [] (text "ok")] ∧
    length kept = 99 ∧ length logs = 100.
Proof.
  destruct (save_research_log_bounded (text "2025-01-10T09:00:00") (text "budget") (text "ok") []
              (Some (LogList Fixtures.full_log)) Fixtures.full_log)
    as (logs & kept & Hsave & Hlogs & Hkept & Hlength).
  - right. reflexivity.
  - exists logs, kept. split; [exact Hsave|]. split; [exact Hlogs|].
    split; [rewrite Hkept; reflexivity | rewrite Hlength; reflexivity].
Defined.

(** ** The daily report *)

Lemma has_status_unique (a b : str) (project : dict cell) :
  has_status a project = true → has_status b project = true → a = b.
Proof.
  unfold has_status. intros Ha%bool_decide_eq_true Hb%bool_decide_eq_true. congruence.
Qed.

(** The four statuses that the report counts are counted apart. *)
Lemma status_counts (projects : list (dict cell)) :
  length (List.filter (has_status En_cours) projects)
  + length (List.filter (has_status A_faire) projects)
  + length (List.filter (has_status Termine) projects)
  + length (List.filter (has_status Bloque) projects)
  ≤ length projects.
Proof.
  induction projects as [|p projects IH]; simpl; [lia|].
  destruct (has_status En_cours p) eqn:H1, (has_status A_faire p) eqn:H2,
           (has_status Termine p) eqn:H3, (has_status Bloque p) eqn:H4;
    simpl; try lia; exfalso;
    match goal with
    | Ha : has_status ?a p = true, Hb : has_status ?b p = true |- _ =>
        pose proof (has_status_unique a b p Ha Hb) as Heq; vm_compute in Heq; discriminate Heq
    end.
Qed.

Lemma status_counts_all (projects : list (dict cell)) :
  (∀ project, project ∈ projects →
     ∃ statut, statut ∈ [En_cours; A_faire; Termine; Bloque] ∧
               project !! Statut = Some (CStr statut)) →
  length (List.filter (has_status En_cours) projects)
  + length (List.filter (has_status A_faire) projects)
  + length (List.filter (has_status Termine) projects)
  + length (List.filter (has_status Bloque) projects)
  = length projects.
Proof.
  induction projects as [|p projects IH]; intros Hall; [done|].
  assert (∀ project, project ∈ projects →
            ∃ statut, statut ∈ [En_cours; A_faire; Termine; Bloque] ∧
                      project !! Statut = Some (CStr statut)) as Hrest.
  { intros project Hin. apply Hall. by right. }
  specialize (IH Hrest).
  destruct (Hall p) as (statut & Hstatut & Hp); [left|].
  assert (has_status statut p = true) as Hhas by (by apply bool_decide_eq_true).
  simpl.
  destruct (has_status En_cours p) eqn:H1, (has_status A_faire p) eqn:H2,
           (has_status Termine p) eqn:H3, (has_status Bloque p) eqn:H4;
    simpl; try lia; exfalso;
    try match goal with
    | Ha : has_status ?a p = true, Hb : has_status ?b p = true |- _ =>
        pose proof (has_status_unique a b p Ha Hb) as Heq; vm_compute in Heq;
        discriminate Heq
    end.
  repeat (apply elem_of_cons in Hstatut as [->|Hstatut]; [congruence|]).
  by apply elem_of_nil in Hstatut.
Qed.

Lemma urgent_projects_length (projects urgent : list (dict cell)) :
  urgent_projects projects = Value urgent → length urgent ≤ length projects.
Proof.
  revert urgent. induction projects as [|p projects IH]; intros urgent; simpl.
  - intros [= <-]. done.
  - destruct (default _ (p !! Alerte)) as [z|alerte]; [done|].
    destruct (urgent_projects projects) as [l|e]; [|done].
    specialize (IH l eq_refl). intros [= <-].
    destruct (Py.contains _ _); simpl; lia.
Qed.

Lemma urgent_projects_throw (projects : list (dict cell)) (e : exception) :
  urgent_projects projects = Throw e → e = TypeError.
Proof.
  induction projects as [|p projects IH]; simpl; [done|].
  destruct (default _ (p !! Alerte)); [by intros [= <-]|].
  destruct (urgent_projects projects) as [l|e']; [done|].
  intros [= <-]. by apply IH.
Qed.

Lemma urgent_projects_numeric (projects : list (dict cell)) :
  (∃ project z, project ∈ projects ∧ project !! Alerte = Some (CInt z)) →
  urgent_projects projects = Throw TypeError.
Proof.
  induction projects as [|p projects IH]; intros (project & z & Hin & Halerte).
  - by apply elem_of_nil in Hin.
  - simpl. apply elem_of_cons in Hin as [->|Hin].
    + by rewrite Halerte.
    + rewrite IH by (by exists project, z).
      by destruct (default _ (p !! Alerte)).
Qed.

Lemma urgent_projects_textual (projects : list (dict cell)) :
  (∀ project z, project ∈ projects → project !! Alerte ≠ Some (CInt z)) →
  ∃ urgent, urgent_projects projects = Value urgent.
Proof.
  induction projects as [|p projects IH]; intros Htext; simpl; [by eexists|].
  destruct IH as [urgent ->].
  { intros project z Hin. apply Htext. by right. }
  destruct (p !! Alerte) as [[z|alerte]|] eqn:Halerte; simpl; [|by eexists..].
  exfalso. apply (Htext p z); [left | done].
Qed.

Section Late.

Variable strptime : str → option Z.
Variable today : Z.

(** The loop over the deadlines either raises [TypeError] or keeps exactly
    the late projects, in the order of the sheet. *)
Lemma late_projects_outcome (projects retards : list (dict cell)) :
  late_projects strptime today projects retards
  = Value (retards ++ List.filter (is_late strptime today) projects) ∨
  late_projects strptime today projects retards = Throw TypeError.
Proof.
  revert retards. induction projects as [|p projects IH]; intros retards; simpl.
  - left. by rewrite app_nil_r.
  - unfold is_late.
    destruct (truthy (p !! Deadline) && negb (has_status Termine p)); simpl; [|apply IH].
    destruct (p !! Deadline) as [[z|s]|]; [by right| |by right].
    destruct (strptime s) as [deadline|]; [|apply IH].
    destruct (deadline <? today)%Z; [|apply IH].
    destruct (IH (retards ++ [p])) as [-> | ->]; [left|by right].
    by rewrite <- app_assoc.
Qed.

Lemma late_projects_textual (projects retards : list (dict cell)) :
  (∀ project z, project ∈ projects → project !! Deadline ≠ Some (CInt z)) →
  late_projects strptime today projects retards
  = Value (retards ++ List.filter (is_late strptime today) projects).
Proof.
  revert retards. induction projects as [|p projects IH]; intros retards Htext; simpl.
  - by rewrite app_nil_r.
  - assert (∀ project z, project ∈ projects → project !! Deadline ≠ Some (CInt z)) as Hrest.
    { intros project z Hin. apply Htext. by right. }
    unfold is_late.
    destruct (p !! Deadline) as [[z|s]|] eqn:Hdeadline.
    + exfalso. apply (Htext p z); [left | done].
    + destruct (truthy (Some (CStr s)) && negb (has_status Termine p)); simpl; [|by apply IH].
      destruct (strptime s) as [deadline|]; [|by apply IH].
      destruct (deadline <? today)%Z; [|by apply IH].
      rewrite IH by done. by rewrite <- app_assoc.
    + simpl. by apply IH.
Qed.

Lemma late_projects_numeric (projects retards : list (dict cell)) :
  (∃ project z, project ∈ projects ∧ project !! Deadline = Some (CInt z) ∧ z ≠ 0%Z ∧
     project !! Statut ≠ Some (CStr Termine)) →
  late_projects strptime today projects retards = Throw TypeError.
Proof.
  revert retards. induction projects as [|p projects IH];
    intros retards (project & z & Hin & Hdeadline & Hz & Hstatut).
  - by apply elem_of_nil in Hin.
  - simpl. apply elem_of_cons in Hin as [->|Hin].
    + rewrite Hdeadline. simpl. unfold has_status.
      rewrite (bool_decide_eq_false_2 _ Hstatut).
      by destruct (Z.eqb_spec z 0).
    + assert (∀ retards', late_projects strptime today projects retards' = Throw TypeError)
        as Hrest.
      { intros retards'. apply IH. by exists project, z. }
      destruct (truthy (p !! Deadline) && negb (has_status Termine p)); [|apply Hrest].
      destruct (p !! Deadline) as [[z'|s]|]; [done| |done].
      destruct (strptime s) as [deadline|]; [|apply Hrest].
      destruct (deadline <? today)%Z; apply Hrest.
Qed.

End Late.

(** X16. In a report that succeeds, the total is the number of projects, the four
    statuses counted are counted apart, so that their counts add up to the
    total at most, and to the total when every project has one of these
    four statuses; the urgent projects are at most the total. *)
Theorem generer_rapport_statistics (strptime : str → option Z) (today : Z)
    (redacteur : option str) (current_date : str) (self : agent) (r : daily_report) :
  generer_rapport_quotidien strptime today redacteur current_date self = Report r →
  let stats := report_statistics r in
  total stats = length (get_all_records (sheet self)) ∧
  en_cours stats + a_faire stats + termines stats + bloques stats ≤ total stats ∧
  urgents stats ≤ total stats ∧
  ((∀ project, project ∈ get_all_records (sheet self) →
      ∃ statut, statut ∈ [En_cours; A_faire; Termine; Bloque] ∧
                project !! Statut = Some (CStr statut)) →
   en_cours stats + a_faire stats + termines stats + bloques stats = total stats).
Proof.
  unfold generer_rapport_quotidien.
  destruct (urgent_projects _) as [urgent|e] eqn:Hurgent; [|done].
  destruct (late_projects _ _ _ _) as [retards|e]; [|done].
  destruct redacteur as [rapport_analysis|]; [|done].
  intros [= <-]. cbn [report_statistics total en_cours a_faire termines bloques urgents].
  split; [done|]. split; [apply status_counts|].
  split; [by apply urgent_projects_length|].
  apply status_counts_all.
Qed.

(** X17. In a report that succeeds, the late projects are exactly the projects
    that are not [Terminé] and whose deadline reads as a day before today,
    in the order of the sheet, and the critical projects exactly those of
    priority 1 that are not [Terminé]: a finished project is in neither
    list, a cancelled one can be in both. *)
Theorem generer_rapport_lists (strptime : str → option Z) (today : Z)
    (redacteur : option str) (current_date : str) (self : agent) (r : daily_report) :
  generer_rapport_quotidien strptime today redacteur current_date self = Report r →
  projets_retard r = List.filter (is_late strptime today) (get_all_records (sheet self)) ∧
  projets_critiques r = List.filter is_critical (get_all_records (sheet self)) ∧
  (∀ project, project ∈ projets_retard r →
     project !! Statut ≠ Some (CStr Termine) ∧
     ∃ s deadline, project !! Deadline = Some (CStr s) ∧ strptime s = Some deadline ∧
                   (deadline < today)%Z) ∧
  (∀ project, project ∈ projets_critiques r →
     project !! Statut ≠ Some (CStr Termine) ∧ project !! Priorite = Some (CInt 1)).
Proof.
  unfold generer_rapport_quotidien.
  destruct (urgent_projects _) as [urgent|e]; [|done].
  destruct (late_projects_outcome strptime today (get_all_records (sheet self)) [])
    as [-> | ->]; [|done].
  destruct redacteur as [rapport_analysis|]; [|done].
  intros [= <-]. cbn [projets_retard projets_critiques].
  split; [done|]. split; [done|]. split.
  - intros project [_ Hlate]%list_elem_of_In%filter_In. unfold is_late in Hlate.
    apply andb_true_iff in Hlate as [[_ Hstatut]%andb_true_iff Hdeadline].
    split.
    + unfold has_status in Hstatut. apply negb_true_iff in Hstatut.
      by apply bool_decide_eq_false in Hstatut.
    + destruct (project !! Deadline) as [[z|s]|]; [done| |done].
      destruct (strptime s) as [deadline|] eqn:Hparse; [|done].
      exists s, deadline. split; [done|]. split; [done|]. by apply Z.ltb_lt.
  - intros project [_ Hcritical]%list_elem_of_In%filter_In. unfold is_critical in Hcritical.
    apply andb_true_iff in Hcritical as [Hpriorite Hstatut]. split.
    + unfold has_status in Hstatut. apply negb_true_iff in Hstatut.
      by apply bool_decide_eq_false in Hstatut.
    + by apply bool_decide_eq_true in Hpriorite.
Qed.

(** X18. When the alerts and the deadlines of the sheet are texts (or empty) and
    the writing agent answers, the report succeeds: a deadline that is not a
    date is skipped, it does not fail the report. *)
Theorem generer_rapport_succeeds (strptime : str → option Z) (today : Z)
    (rapport_analysis current_date : str) (self : agent) :
  (∀ project z, project ∈ get_all_records (sheet self) →
     project !! Alerte ≠ Some (CInt z) ∧ project !! Deadline ≠ Some (CInt z)) →
  ∃ r, generer_rapport_quotidien strptime today (Some rapport_analysis) current_date self
       = Report r ∧
       report_analysis r = rapport_analysis ∧ report_date r = current_date.
Proof.
  intros Htext. unfold generer_rapport_quotidien.
  destruct (urgent_projects_textual (get_all_records (sheet self))) as [urgent ->].
  { intros project z Hin. by apply Htext. }
  rewrite late_projects_textual by (intros project z Hin; by apply Htext).
  by eexists.
Qed.

(** X19. A number in the alert column, or a number other than 0 as the deadline
    of a project that is not [Terminé], makes the whole report fail with a
    [TypeError], reported as an error record. *)
Theorem generer_rapport_numeric (strptime : str → option Z) (today : Z)
    (redacteur : option str) (current_date : str) (self : agent) :
  (∃ project z, project ∈ get_all_records (sheet self) ∧
     (project !! Alerte = Some (CInt z) ∨
      project !! Deadline = Some (CInt z) ∧ z ≠ 0%Z ∧
      project !! Statut ≠ Some (CStr Termine))) →
  generer_rapport_quotidien strptime today redacteur current_date self
  = ReportError current_date TypeError.
Proof.
  intros (project & z & Hin & [Halerte|(Hdeadline & Hz & Hstatut)]);
    unfold generer_rapport_quotidien.
  - rewrite urgent_projects_numeric; [done|]. by exists project, z.
  - destruct (urgent_projects _) as [urgent|e] eqn:Hurgent.
    + rewrite late_projects_numeric; [done|]. by exists project, z.
    + by rewrite (urgent_projects_throw _ _ Hurgent).
Qed.

Lemma generer_rapport_statistics_witness :
  ∃ r, generer_rapport_quotidien Fixtures.strptime 10 (Some (text "ok")) (text "2025-01-10")
         (Fixtures.agent_of Fixtures.portfolio) = Report r ∧
       total (report_statistics r) = 3 ∧
       en_cours (report_statistics r) + a_faire (report_statistics r)
       + termines (report_statistics r) + bloques (report_statistics r) = 3.
Proof.
  eexists. split; [reflexivity|].
  destruct (generer_rapport_statistics Fixtures.strptime 10 (Some (text "ok"))
              (text "2025-01-10") (Fixtures.agent_of Fixtures.portfolio) _ eq_refl)
    as (Htotal & _ & _ & Hall).
  split; [exact Htotal|]. rewrite Hall; [exact Htotal|].
  intros project Hin.
  repeat (apply elem_of_cons in Hin as [->|Hin];
          [eexists; split; [|vm_compute; reflexivity]; by_decide|]).
  by apply elem_of_nil in Hin.
Defined.

Lemma generer_rapport_lists_witness :
  ∃ r, generer_rapport_quotidien Fixtures.strptime 10 (Some (text "ok")) (text "2025-01-10")
         (Fixtures.agent_of Fixtures.portfolio) = Report r ∧
       length (projets_retard r) = 1 ∧ length (projets_critiques r) = 1.
Proof.
  eexists. split; [reflexivity|].
  destruct (generer_rapport_lists Fixtures.strptime 10 (Some (text "ok"))
              (text "2025-01-10") (Fixtures.agent_of Fixtures.portfolio) _ eq_refl)
    as (Hretard & Hcritiques & _).
  rewrite Hretard, Hcritiques. split; reflexivity.
Defined.

Lemma generer_rapport_succeeds_witness :
  ∃ r, generer_rapport_quotidien Fixtures.strptime 10 (Some (text "ok")) (text "2025-01-10")
         (Fixtures.agent_of Fixtures.portfolio) = Report r ∧
       report_analysis r = text "ok".
Proof.
  destruct (generer_rapport_succeeds Fixtures.strptime 10 (text "ok") (text "2025-01-10")
              (Fixtures.agent_of Fixtures.portfolio)) as (r & Hreport & Hanalysis & _).
  - intros project z Hin.
    repeat (apply elem_of_cons in Hin as [->|Hin]; [split; vm_compute; discriminate|]).
    by apply elem_of_nil in Hin.
  - by exists r.
Defined.

Lemma generer_rapport_numeric_witness :
  generer_rapport_quotidien Fixtures.strptime 10 (Some (text "ok")) (text "2025-01-10")
    (Fixtures.agent_of Fixtures.numeric_alert)
  = ReportError (text "2025-01-10") TypeError.
Proof.
  apply generer_rapport_numeric.
  eexists. exists 5%Z. split; [left|]. left. vm_compute. reflexivity.
Defined.

(** ** The health of a project *)

Section Health.

Variable strptime : str → option Z.
Variable today : Z.

Implicit Types (project : dict cell) (acc : Z * list str).

(** What the checks keep: the score is at most 100, and it is 100 exactly
    when there is no issue. *)
Lemma check_stagnation_inv project :
  ((check_stagnation project).1 ≤ 100)%Z ∧
  ((check_stagnation project).2 = [] ↔ (check_stagnation project).1 = 100%Z).
Proof.
  unfold check_stagnation.
  destruct (default _ (project !! Jours_Stagnation)) as [jours|s]; [|done].
  destruct (14 <? jours)%Z; [done|]. by destruct (7 <? jours)%Z.
Qed.

Lemma check_statut_inv project acc :
  (acc.1 ≤ 100)%Z ∧ (acc.2 = [] ↔ acc.1 = 100%Z) →
  ((check_statut project acc).1 ≤ acc.1)%Z ∧
  ((check_statut project acc).2 = [] ↔ (check_statut project acc).1 = 100%Z).
Proof.
  intros [Hle Hiff]. unfold check_statut.
  destruct (has_status Bloque project); simpl; [|split; [lia | done]].
  split; [lia|]. split; [intros [_ [=]]%app_nil | lia].
Qed.

Lemma check_deadline_inv project acc acc' :
  check_deadline strptime today project acc = Value acc' →
  (acc.1 ≤ 100)%Z ∧ (acc.2 = [] ↔ acc.1 = 100%Z) →
  (acc'.1 ≤ acc.1)%Z ∧ (acc'.2 = [] ↔ acc'.1 = 100%Z).
Proof.
  intros Hcheck [Hle Hiff]. unfold check_deadline in Hcheck.
  destruct (truthy (project !! Deadline)); [|injection Hcheck as <-; split; [lia | done]].
  destruct (project !! Deadline) as [[z|s]|]; [done| |done].
  destruct (strptime s) as [deadline|]; [|injection Hcheck as <-; split; [lia | done]].
  destruct (deadline - today <? 0)%Z.
  { injection Hcheck as <-. simpl. split; [lia|]. split; [intros [_ [=]]%app_nil | lia]. }
  destruct (deadline - today <=? 3)%Z.
  { injection Hcheck as <-. simpl. split; [lia|]. split; [intros [_ [=]]%app_nil | lia]. }
  injection Hcheck as <-. split; [lia | done].
Qed.

Lemma check_progression_inv project acc :
  (acc.1 ≤ 100)%Z ∧ (acc.2 = [] ↔ acc.1 = 100%Z) →
  ((check_progression project acc).1 ≤ acc.1)%Z ∧
  ((check_progression project acc).2 = [] ↔ (check_progression project acc).1 = 100%Z).
Proof.
  intros [Hle Hiff]. unfold check_progression.
  destruct (default _ (project !! Progression)) as [progression|s]; [|split; [lia | done]].
  destruct ((progression <? 25)%Z && has_status En_cours project); simpl;
    [|split; [lia | done]].
  split; [lia|]. split; [intros [_ [=]]%app_nil | lia].
Qed.

(** The score after the four checks, against the score after the first. *)
Lemma checks_inv project acc :
  check_deadline strptime today project (check_statut project (check_stagnation project))
  = Value acc →
  ((check_progression project acc).1 ≤ (check_stagnation project).1)%Z ∧
  ((check_progression project acc).1 ≤ 100)%Z ∧
  ((check_progression project acc).2 = [] ↔ (check_progression project acc).1 = 100%Z).
Proof.
  intros Hdeadline.
  pose proof (check_stagnation_inv project) as [H1 H1'].
  pose proof (check_statut_inv project _ (conj H1 H1')) as [H2 H2'].
  assert ((check_statut project (check_stagnation project)).1 ≤ 100)%Z as H2'' by lia.
  pose proof (check_deadline_inv project _ _ Hdeadline (conj H2'' H2')) as [H3 H3'].
  assert (acc.1 ≤ 100)%Z as H3'' by lia.
  pose proof (check_progression_inv project acc (conj H3'' H3')) as [H4 H4'].
  split; [lia|]. split; [lia | done].
Qed.

End Health.

Lemma level_of_clamped (health_score : Z) :
  level_of (Z.max 0 health_score) = level_of health_score.
Proof.
  unfold level_of.
  destruct (Z.leb_spec 80 health_score), (Z.leb_spec 80 (Z.max 0 health_score)); try lia;
    [done|].
  destruct (Z.leb_spec 60 health_score), (Z.leb_spec 60 (Z.max 0 health_score)); try lia;
    [done|].
  destruct (Z.leb_spec 40 health_score), (Z.leb_spec 40 (Z.max 0 health_score)); try lia;
    done.
Qed.

Lemma generate_recommendations_nil (lower : str → str) (project : dict cell) :
  generate_recommendations lower project [] = [].
Proof. reflexivity. Qed.

(** X20. Every health record has a score between 0 and 100 and the level that
    goes with this score; the score is 100 exactly when no issue is listed,
    and then no recommendation is made. *)
Theorem analyze_project_health_score (lower : str → str) (strptime : str → option Z)
    (today : Z) (name : str) (self : agent) (h : health) :
  analyze_project_health lower strptime today name self = Value (Health h) →
  (0 ≤ health_score h ≤ 100)%Z ∧
  health_level h = level_of (health_score h) ∧
  (issues h = [] ↔ health_score h = 100%Z) ∧
  (issues h = [] → recommendations h = []) ∧
  project_name h = name.
Proof.
  unfold analyze_project_health.
  destruct (rechercher_projet lower name self).1 as [[|project rest]|e]; [done| |done].
  destruct (check_deadline _ _ _ _) as [acc|e] eqn:Hdeadline; [|done].
  pose proof (checks_inv strptime today project acc Hdeadline) as (_ & Hle & Hiff).
  destruct (check_progression project acc) as [score issues0]. simpl in Hle, Hiff.
  intros [= <-]. cbn [health_score health_level issues recommendations project_name].
  split; [lia|]. split; [by rewrite level_of_clamped|].
  split; [|split; [by intros ->|done]].
  rewrite Hiff. lia.
Qed.

(** X21. The sweep and the health analysis agree on stagnation: a project that
    the sweep reports has, when it is the one analysed, a score of at most
    85 and at least one issue. *)
Theorem analyze_project_health_stagnant (lower : str → str) (strptime : str → option Z)
    (today : Z) (name : str) (self : agent) (project : dict cell)
    (rest : list (dict cell)) (h : health) :
  rechercher_projet lower name self = (Return (project :: rest), self) →
  stagnant project = true →
  analyze_project_health lower strptime today name self = Value (Health h) →
  (health_score h ≤ 85)%Z ∧ issues h ≠ [].
Proof.
  intros Hsearch Hstagnant. unfold analyze_project_health. rewrite Hsearch. simpl.
  destruct (check_deadline _ _ _ _) as [acc|e] eqn:Hdeadline; [|done].
  pose proof (checks_inv strptime today project acc Hdeadline) as (Hfirst & Hle & Hiff).
  assert ((check_stagnation project).1 ≤ 85)%Z as Hcheck.
  { unfold stagnant in Hstagnant. apply andb_true_iff in Hstagnant as [_ Hjours].
    unfold check_stagnation.
    destruct (project !! Jours_Stagnation) as [[jours|s]|]; [|done..]. simpl.
    rewrite Hjours. by destruct (14 <? jours)%Z. }
  destruct (check_progression project acc) as [score issues0]. simpl in *.
  intros [= <-]. cbn [health_score issues].
  split; [lia|]. intros Hnil. apply Hiff in Hnil. lia.
Qed.

(** X22. On a sheet whose names, descriptions and notes are texts, the analysis
    answers [Projet non trouvé] exactly when no project has the name given
    as a part of its name, description or notes, in any case: the analysis
    is that of the first project found by the search, which need not be the
    project of that exact name. *)
Theorem analyze_project_health_not_found (lower : str → str) (strptime : str → option Z)
    (today : Z) (name : str) (self : agent) :
  Forall textual (get_all_records (sheet self)) →
  analyze_project_health lower strptime today name self = Value ProjectNotFound ↔
  (∀ project, project ∈ get_all_records (sheet self) →
     spec_matches lower name project = false).
Proof.
  intros Htext. unfold analyze_project_health, rechercher_projet, bind, get_all_projects.
  rewrite search_projects_filter by done. simpl. split.
  - intros Hresult project Hin.
    destruct (spec_matches lower name project) eqn:Hmatch; [|done]. exfalso.
    assert (project ∈ List.filter (spec_matches lower name) (get_all_records (sheet self)))
      as Hfound.
    { apply list_elem_of_In, filter_In. split; [by apply list_elem_of_In | done]. }
    destruct (List.filter _ _) as [|first rest]; [by apply elem_of_nil in Hfound|].
    destruct (check_deadline _ _ _ _) as [acc|e]; [|done].
    by destruct (check_progression first acc).
  - intros Hnone. by rewrite filter_none.
Qed.

Lemma analyze_project_health_score_witness :
  ∃ h, analyze_project_health Py.ascii_lower Fixtures.strptime 10 (text "site")
         (Fixtures.agent_of Fixtures.portfolio) = Value (Health h) ∧
       health_score h = 0%Z ∧ health_level h = Critique ∧ length (issues h) = 3.
Proof.
  eexists. split; [reflexivity|].
  destruct (analyze_project_health_score Py.ascii_lower Fixtures.strptime 10 (text "site")
              (Fixtures.agent_of Fixtures.portfolio) _ eq_refl) as (_ & Hlevel & _).
  split; [reflexivity|]. split; [rewrite Hlevel|]; reflexivity.
Defined.

Lemma analyze_project_health_stagnant_witness :
  ∃ h, analyze_project_health Py.ascii_lower Fixtures.strptime 10 (text "site")
         (Fixtures.agent_of Fixtures.portfolio) = Value (Health h) ∧
       (health_score h ≤ 85)%Z ∧ issues h ≠ [].
Proof.
  eexists. split; [reflexivity|].
  eapply (analyze_project_health_stagnant Py.ascii_lower Fixtures.strptime 10 (text "site")
            (Fixtures.agent_of Fixtures.portfolio)).
  - reflexivity.
  - reflexivity.
  - reflexivity.
Defined.

Lemma analyze_project_health_not_found_witness :
  analyze_project_health Py.ascii_lower Fixtures.strptime 10 (text "paie")
    (Fixtures.agent_of Fixtures.portfolio) = Value ProjectNotFound.
Proof.
  apply analyze_project_health_not_found.
  - repeat constructor; intros key Hkey z;
      repeat (apply elem_of_cons in Hkey as [->|Hkey]; [vm_compute; discriminate|]);
      by apply elem_of_nil in Hkey.
  - intros project Hin.
    repeat (apply elem_of_cons in Hin as [->|Hin]; [vm_compute; reflexivity|]).
    by apply elem_of_nil in Hin.
Defined.
